(** * pyneurgen: grammatical evolution — genotype encoding, grammar mapping
      and the generational loop

    A shallow embedding of [pyneurgen/utilities.py], [pyneurgen/genotypes.py]
    and [pyneurgen/grammatical_evolution.py] (Python 2), and the properties
    of the specification checked against it.

    Conventions of the embedding
    - Python [int] is [Z] for codon values and times, and [nat] for lengths,
      indices and counters, which the code never makes negative.
    - A Python [str] holding program text or a grammar key is a [string]; the
      binary gene, a [str] of bit characters that the code only indexes and
      slices, is a [list ascii], so that [s[:k]] is [take k s] and [s[k:]] is
      [drop k s].
    - A Python [float] is a rational [Q].  Floats are compared, written with
      [str] and read with [float]; the two conversions are parameters of the
      development.  The one product of floats, in [_evaluate_fitness], is the
      exact product, which is the float product whenever that is exact.
    - A Python [dict] is a [gmap].
    - An exception is a value of [exn]; a method of [Genotype] is a function
      from the state of the object to an [outcome], which keeps the state
      reached when the exception was raised, as an [except] block finds it.
    - What the code takes from outside is an input of the model: the clock,
      the behaviour of the generated program under [exec], the results of
      [random], and the selection strategies of [pyneurgen/fitness.py].
    - Loops whose number of turns is not bounded by their data (the passes
      of [_map_variables], the generations of [run]) take a [fuel]. *)

From Stdlib Require Import ZArith QArith Qround Lia List Ascii String DecimalString.
From stdpp Require Import base gmap strings list.

Open Scope string_scope.
Open Scope list_scope.

(** ** Exceptions and results *)

Inductive exn : Type :=
| ValueError (msg : string)
| KeyError (key : string)
| IndexError
| TypeError
| ZeroDivisionError
| StandardError (msg : string)
| ProgramError (msg : string).

(** Result of a pure function that may raise. *)
Inductive res (A : Type) : Type :=
| Val (a : A)
| Exc (e : exn).
Arguments Val {A} a.
Arguments Exc {A} e.

Definition res_bind {A B} (r : res A) (k : A -> res B) : res B :=
  match r with
  | Val a => k a
  | Exc e => Exc e
  end.

(** [for x in l: acc = f(acc, x)], stopping at the first exception. *)
Fixpoint res_fold {A B} (f : B -> A -> res B) (l : list A) (acc : B) : res B :=
  match l with
  | [] => Val acc
  | x :: l' => res_bind (f acc x) (res_fold f l')
  end.

(** ** Python [str] helpers *)

(** Characters removed by [str.strip()] and matched by [\s]. *)
Definition is_space (c : ascii) : bool :=
  let n := nat_of_ascii c in
  (n =? 32)%nat || ((9 <=? n)%nat && (n <=? 13)%nat).

(** [s.strip() == ''] *)
Fixpoint strip_is_empty (s : string) : bool :=
  match s with
  | EmptyString => true
  | String c s' => is_space c && strip_is_empty s'
  end.

(** [hay.find(needle) > -1], which is also [needle in hay]. *)
Fixpoint str_contains (needle hay : string) : bool :=
  String.prefix needle hay ||
  match hay with
  | EmptyString => false
  | String _ hay' => str_contains needle hay'
  end.

(** [s[0]] and [s[-1]] of a non-empty string. *)
Definition first_char (s : string) : option ascii :=
  match s with
  | EmptyString => None
  | String c _ => Some c
  end.

Fixpoint last_char (s : string) : option ascii :=
  match s with
  | EmptyString => None
  | String c EmptyString => Some c
  | String _ s' => last_char s'
  end.

(** [''.join(l)] *)
Definition join (l : list string) : string := fold_right String.append "" l.

(** [str(n)] of an int. *)
Definition str_of_Z (n : Z) : string := NilZero.string_of_int (Z.to_int n).

(** [x < y] on floats. *)
Definition Qlt_bool (x y : Q) : bool := negb (Qle_bool y x).

(** [s[i:j]] for [0 <= i]. *)
Definition slice {A} (s : list A) (i j : nat) : list A := take (j - i) (drop i s).

(** * utilities.py *)

Module utilities.

(** The loop [while val > 0: new_value.append(str(val % 2)); val = val / 2]
    follows the binary digits of [val] from the lowest one: [val % 2] is the
    last constructor of the positive number and [val / 2] the rest. *)
Fixpoint append_bits (val : positive) (new_value : list ascii) : list ascii :=
  match val with
  | xH => new_value ++ ["1"%char]
  | xO q => append_bits q (new_value ++ ["0"%char])
  | xI q => append_bits q (new_value ++ ["1"%char])
  end.

(** [s.zfill(width)] of a string without sign. *)
Definition zfill (width : nat) (s : list ascii) : list ascii :=
  replicate (width - length s) "0"%char ++ s.

Definition base10tobase2 (value : Z) (zfill_ : nat) : res (list ascii) :=
  let neg := (value <? 0)%Z in
  let val := if neg then (value * -1)%Z else value in
  let new_value :=
    match val with
    | Z0 => ["0"%char]
    | Zpos p => append_bits p []
    | Zneg _ => []
    end in
  let new_value_str := rev new_value in
  res_bind
    (if (zfill_ =? 0)%nat then Val new_value_str
     else if (zfill_ <? length new_value_str)%nat
          then Exc (ValueError "Base 2 version of %s is longer, %s, than the zfill limit, %s")
          else Val (zfill zfill_ new_value_str))
    (fun new_value_str =>
       Val (if neg then "-"%char :: new_value_str else new_value_str)).

(** [int(c)] of a one-character string. *)
Definition int_of_char (c : ascii) : res Z :=
  let n := nat_of_ascii c in
  if (48 <=? n)%nat && (n <=? 57)%nat then Val (Z.of_nat (n - 48))
  else Exc (ValueError "invalid literal for int() with base 10").

(** The loop [for i in range(len(val) - 1, -1, -1)] walks the characters from
    the last one; [rev_val] is what is left to visit. *)
Fixpoint base2tobase10_loop (rev_val : list ascii) (factor new_value : Z) (neg : bool)
  : res (Z * bool) :=
  match rev_val with
  | [] => Val (new_value, neg)
  | c :: rest =>
      if Ascii.eqb c "-"%char then base2tobase10_loop rest (factor + 1) new_value true
      else res_bind (int_of_char c) (fun d =>
             base2tobase10_loop rest (factor + 1) (new_value + d * 2 ^ factor)%Z neg)
  end.

(** [val < 0] compares a [str] with an [int], which is [False] in Python 2, so
    [neg] starts as [False]. *)
Definition base2tobase10 (value : list ascii) : res Z :=
  res_bind (base2tobase10_loop (rev value) 0 0 false) (fun '(new_value, neg) =>
    Val (if (neg : bool) then (new_value * -1)%Z else new_value)).

End utilities.

(** * genotypes.py *)

Module genotypes.

Definition STOPLIST : list string := ["runtime_resolve"; "set_bnf_variable"].
Definition MUT_TYPE_M : string := "m".
Definition MUT_TYPE_S : string := "s".
Definition BNF_PROGRAM : string := "program".

(** Values held in the grammar table and handed to the generated program. *)
Inductive pyval : Type :=
| VStr (s : string)
| VInt (n : Z)
| VFloat (x : Q)
| VBool (b : bool).

(** A value of [local_bnf]: a list of alternatives or, as [_execute_code]
    stores under ["program"], a bare [str]. *)
Inductive bnf_value : Type :=
| BList (l : list pyval)
| BStr (s : string).

(** The attributes of a [Genotype] object.  [None] is a Python [None].
    [starttime] is in microseconds.  [clock_reads] is not an attribute of the
    class: it counts the calls to [datetime.now()] made so far on behalf of
    this object, so that the clock can be read as a function of that count. *)
Record Genotype : Type := mkGenotype {
  member_no : nat;
  local_bnf : gmap string bnf_value;
  _max_program_length : option nat;
  _fitness : option Q;
  _fitness_fail : option Q;
  _wrap : bool;
  _extend_genotype : bool;
  starttime : option Z;
  _timeouts : Z * Z;
  _gene_length : nat;
  _max_gene_length : nat;
  binary_gene : list ascii;
  decimal_gene : list Z;
  _position : nat * nat;
  errors : list string;
  clock_reads : nat
}.

Definition with_local_bnf (v : gmap string bnf_value) (g : Genotype) : Genotype :=
  mkGenotype (member_no g) v (_max_program_length g) (_fitness g) (_fitness_fail g)
    (_wrap g) (_extend_genotype g) (starttime g) (_timeouts g) (_gene_length g)
    (_max_gene_length g) (binary_gene g) (decimal_gene g) (_position g) (errors g)
    (clock_reads g).

Definition with_fitness (v : option Q) (g : Genotype) : Genotype :=
  mkGenotype (member_no g) (local_bnf g) (_max_program_length g) v (_fitness_fail g)
    (_wrap g) (_extend_genotype g) (starttime g) (_timeouts g) (_gene_length g)
    (_max_gene_length g) (binary_gene g) (decimal_gene g) (_position g) (errors g)
    (clock_reads g).

Definition with_gene_length (v : nat) (g : Genotype) : Genotype :=
  mkGenotype (member_no g) (local_bnf g) (_max_program_length g) (_fitness g)
    (_fitness_fail g) (_wrap g) (_extend_genotype g) (starttime g) (_timeouts g) v
    (_max_gene_length g) (binary_gene g) (decimal_gene g) (_position g) (errors g)
    (clock_reads g).

Definition with_binary_gene (v : list ascii) (g : Genotype) : Genotype :=
  mkGenotype (member_no g) (local_bnf g) (_max_program_length g) (_fitness g)
    (_fitness_fail g) (_wrap g) (_extend_genotype g) (starttime g) (_timeouts g)
    (_gene_length g) (_max_gene_length g) v (decimal_gene g) (_position g) (errors g)
    (clock_reads g).

Definition with_decimal_gene (v : list Z) (g : Genotype) : Genotype :=
  mkGenotype (member_no g) (local_bnf g) (_max_program_length g) (_fitness g)
    (_fitness_fail g) (_wrap g) (_extend_genotype g) (starttime g) (_timeouts g)
    (_gene_length g) (_max_gene_length g) (binary_gene g) v (_position g) (errors g)
    (clock_reads g).

Definition with_position (v : nat * nat) (g : Genotype) : Genotype :=
  mkGenotype (member_no g) (local_bnf g) (_max_program_length g) (_fitness g)
    (_fitness_fail g) (_wrap g) (_extend_genotype g) (starttime g) (_timeouts g)
    (_gene_length g) (_max_gene_length g) (binary_gene g) (decimal_gene g) v (errors g)
    (clock_reads g).

Definition with_errors (v : list string) (g : Genotype) : Genotype :=
  mkGenotype (member_no g) (local_bnf g) (_max_program_length g) (_fitness g)
    (_fitness_fail g) (_wrap g) (_extend_genotype g) (starttime g) (_timeouts g)
    (_gene_length g) (_max_gene_length g) (binary_gene g) (decimal_gene g) (_position g) v
    (clock_reads g).

Definition with_clock_reads (v : nat) (g : Genotype) : Genotype :=
  mkGenotype (member_no g) (local_bnf g) (_max_program_length g) (_fitness g)
    (_fitness_fail g) (_wrap g) (_extend_genotype g) (starttime g) (_timeouts g)
    (_gene_length g) (_max_gene_length g) (binary_gene g) (decimal_gene g) (_position g)
    (errors g) v.

Definition with_fitness_fail (v : option Q) (g : Genotype) : Genotype :=
  mkGenotype (member_no g) (local_bnf g) (_max_program_length g) (_fitness g) v
    (_wrap g) (_extend_genotype g) (starttime g) (_timeouts g) (_gene_length g)
    (_max_gene_length g) (binary_gene g) (decimal_gene g) (_position g) (errors g)
    (clock_reads g).

Definition with_timeouts (v : Z * Z) (g : Genotype) : Genotype :=
  mkGenotype (member_no g) (local_bnf g) (_max_program_length g) (_fitness g)
    (_fitness_fail g) (_wrap g) (_extend_genotype g) (starttime g) v (_gene_length g)
    (_max_gene_length g) (binary_gene g) (decimal_gene g) (_position g) (errors g)
    (clock_reads g).

Definition with_max_program_length (v : option nat) (g : Genotype) : Genotype :=
  mkGenotype (member_no g) (local_bnf g) v (_fitness g)
    (_fitness_fail g) (_wrap g) (_extend_genotype g) (starttime g) (_timeouts g)
    (_gene_length g) (_max_gene_length g) (binary_gene g) (decimal_gene g) (_position g)
    (errors g) (clock_reads g).

(** ** Methods as state transformers that may raise *)

Inductive outcome (A : Type) : Type :=
| Returns (a : A) (self : Genotype)
| Raises (e : exn) (self : Genotype)
| OutOfFuel.
Arguments Returns {A} a self.
Arguments Raises {A} e self.
Arguments OutOfFuel {A}.

Definition M (A : Type) : Type := Genotype -> outcome A.

Definition ret {A} (a : A) : M A := fun self => Returns a self.
Definition raise {A} (e : exn) : M A := fun self => Raises e self.
Definition bind {A B} (c : M A) (k : A -> M B) : M B :=
  fun self =>
    match c self with
    | Returns a self' => k a self'
    | Raises e self' => Raises e self'
    | OutOfFuel => OutOfFuel
    end.
Definition get : M Genotype := fun self => Returns self self.
Definition modify (f : Genotype -> Genotype) : M unit := fun self => Returns tt (f self).
Definition lift {A} (r : res A) : M A :=
  fun self =>
    match r with
    | Val a => Returns a self
    | Exc e => Raises e self
    end.

(** [try: body / except: handler] with a bare [except]. *)
Definition try_except {A} (body : M A) (handler : exn -> M A) : M A :=
  fun self =>
    match body self with
    | Raises e self' => handler e self'
    | o => o
    end.

Declare Scope py_scope.
Delimit Scope py_scope with py.
Bind Scope py_scope with M.
Notation "x ← y ; z" := (bind y (fun x => z))
  (at level 20, y at level 100, z at level 200, only parsing) : py_scope.
Notation "' x ← y ; z" := (bind y (fun x => z))
  (at level 20, x pattern, y at level 100, z at level 200, only parsing) : py_scope.
Notation "x ;; z" := (bind x (fun _ => z))
  (at level 100, z at level 200, only parsing, right associativity) : py_scope.
Open Scope py_scope.

(** ** The gene *)

Definition set_binary_gene (binary_gene : list ascii) : M unit :=
  let length_ := length binary_gene in
  let trunc_binary_gene := take (length_ - length_ mod 8) binary_gene in
  modify (with_binary_gene trunc_binary_gene);;
  modify (fun self => with_gene_length (length (genotypes.binary_gene self) / 8) self).

Definition generate_decimal_gene : M unit :=
  self ← get;
  if (_gene_length self =? 0)%nat then raise (ValueError "Invalid gene length")
  else
    dec_geno ← lift (res_fold
        (fun dec_geno i =>
           let item := slice (binary_gene self) i (i + 8) in
           res_bind (utilities.base2tobase10 item) (fun str_trans =>
             Val (dec_geno ++ [str_trans])))
        (map (fun k => k * 8)%nat (seq 0 (_gene_length self))) []);
    modify (with_decimal_gene dec_geno);;
    modify (with_position (0, 0)%nat).

Definition _dec2bin_gene (dec_gene : list Z) : res (list ascii) :=
  res_bind
    (res_fold (fun bin_gene item =>
                 res_bind (utilities.base10tobase2 item 8) (fun s => Val (bin_gene ++ [s])))
              dec_gene [])
    (fun bin_gene => Val (concat bin_gene)).

Definition _update_genotype : M unit :=
  self ← get;
  b ← lift (_dec2bin_gene (decimal_gene self));
  set_binary_gene b.

(** ** Mutation.  The random draws are inputs: [position] is the result of
    [random.randint(0, self._gene_length * 8 - 1)] and [rnd i] the result of
    the [i]-th call to [random.random()]. *)

Definition _mutate (gene : list ascii) (position : nat) : res (list ascii) :=
  match gene !! position with
  | None => Exc IndexError
  | Some c =>
      if Ascii.eqb c "0"%char
      then Val (take position gene ++ ["1"%char] ++ drop (position + 1) gene)
      else Val (take position gene ++ ["0"%char] ++ drop (position + 1) gene)
  end.

Definition _single_mutate (position : nat) : M unit :=
  self ← get;
  if (_gene_length self * 8 =? 0)%nat then raise (ValueError "empty range for randrange()")
  else
    let gene := binary_gene self in
    gene' ← lift (_mutate gene position);
    modify (with_binary_gene gene');;
    generate_decimal_gene.

Definition _multiple_mutate (mutation_rate : Q) (rnd : nat -> Q) : M unit :=
  if Qlt_bool mutation_rate 0 then raise (ValueError "The mutation rate must be >= 0.0")
  else if Qlt_bool 1 mutation_rate then raise (ValueError "The mutation rate must be <= 1.0")
  else
    self ← get;
    let gene := binary_gene self in
    let length_ := length gene in
    gene' ← lift (res_fold
        (fun gene i => if Qlt_bool (rnd i) mutation_rate then _mutate gene i else Val gene)
        (seq 0 length_) gene);
    set_binary_gene gene';;
    generate_decimal_gene.

Definition mutate (mutation_rate : Q) (mutation_type : string)
    (rnd : nat -> Q) (position : nat) : M unit :=
  if String.eqb mutation_type MUT_TYPE_S then
    if Qlt_bool (rnd 0%nat) mutation_rate then _single_mutate position else ret tt
  else if String.eqb mutation_type MUT_TYPE_M then _multiple_mutate mutation_rate rnd
  else raise (ValueError "The mutation type must be either '%s' or '%s'").

Definition get_binary_gene_length (self : Genotype) : nat := _gene_length self * 8.

(** ** The codon cursor *)

Definition _get_codon : M Z :=
  self ← get;
  let '(position, sequence_no) := _position self in
  let length_ := length (decimal_gene self) in
  let wrap := _wrap self in
  if negb wrap && (sequence_no =? _max_gene_length self)%nat
  then raise (ValueError "Max length of genotype reached.")
  else
    match decimal_gene self !! position with
    | None => raise IndexError
    | Some codon =>
        (if _extend_genotype self && (sequence_no =? length_)%nat
         then modify (fun self => with_decimal_gene (decimal_gene self ++ [codon]) self);;
              modify (fun self => with_gene_length (length (decimal_gene self)) self)
         else ret tt);;
        let position := (position + 1)%nat in
        let sequence_no := (sequence_no + 1)%nat in
        let position := if (position =? length_)%nat && wrap then 0%nat else position in
        modify (with_position (position, sequence_no));;
        ret codon
    end.

Definition _reset_gene_position : M unit := modify (with_position (0, 0)%nat).

Definition _select_choice (codon : Z) (selection : bnf_value) : res pyval :=
  match selection with
  | BList l =>
      if (length l =? 0)%nat then Exc ZeroDivisionError
      else match l !! Z.to_nat (codon mod Z.of_nat (length l)) with
           | Some v => Val v
           | None => Exc IndexError
           end
  | BStr _ => Exc (ValueError "selection. %s, must be a list")
  end.

(** ** Splitting program text at the grammar variables

    [re.split(VARIABLE_FORMAT, program)] with
    [VARIABLE_FORMAT = '(\<([^\>|^\s]+)\>)'].  A match is a ["<"], one or more
    characters other than [">"], ["|"], ["^"] and white space, and a [">"].
    The pattern has two groups, so the result is
    [[text0, "<name>", "name", text1, ..., textN]].

    The text is scanned once.  After a ["<"] the characters of the class are
    collected (a ["<"] is one of them); the run of class characters is
    maximal, so the match succeeds exactly when the run is not empty and the
    next character is [">"], and when it fails no later ["<"] of the same run
    can start a match either, so the run is ordinary text. *)

Definition in_name_class (c : ascii) : bool :=
  negb (Ascii.eqb c ">"%char || Ascii.eqb c "|"%char || Ascii.eqb c "^"%char || is_space c).

Inductive scan : Type :=
| Outside (text : string)
| Inside (text name : string).

Definition add_char (s : string) (c : ascii) : string := s +:+ String c "".

Fixpoint re_split_scan (s : string) (st : scan) : list string :=
  match s, st with
  | EmptyString, Outside text => [text]
  | EmptyString, Inside text name => [text +:+ "<" +:+ name]
  | String c s', Outside text =>
      if Ascii.eqb c "<"%char then re_split_scan s' (Inside text "")
      else re_split_scan s' (Outside (add_char text c))
  | String c s', Inside text name =>
      if in_name_class c then re_split_scan s' (Inside text (add_char name c))
      else if Ascii.eqb c ">"%char && negb (String.eqb name "")
      then text :: ("<" +:+ name +:+ ">") :: name :: re_split_scan s' (Outside "")
      else re_split_scan s' (Outside (add_char (text +:+ "<" +:+ name) c))
  end.

Definition re_split_VARIABLE_FORMAT (program : string) : list string :=
  re_split_scan program (Outside "").

(** [on_stoplist] of [_map_variables]. *)
Definition on_stoplist (item : string) : bool :=
  existsb (fun stopitem => str_contains stopitem item) STOPLIST.

(** [item[0] == "<" and item[-1] == ">"] of a non-empty [item]. *)
Definition is_variable (item : string) : bool :=
  match first_char item, last_char item with
  | Some a, Some b => Ascii.eqb a "<"%char && Ascii.eqb b ">"%char
  | _, _ => false
  end.

(** Argument of [set_bnf_variable]: a list or any other value. *)
Inductive pyarg : Type :=
| ArgList (l : list pyval)
| ArgVal (v : pyval).

(** The generated program as the genotype sees it: the calls it makes to
    the two methods it is given, in order, until its text ends or an
    exception leaves it.  The continuation of [Resolve] receives what
    [runtime_resolve] returned or raised (a program that does not catch the
    exception continues as [Throw]). *)
Inductive prog : Type :=
| Halt
| Throw (e : exn)
| SetBnf (variable_name : string) (value : pyarg) (k : prog)
| Resolve (item return_type : string) (k : res pyval -> prog).

(** The Python runtime the genotype runs on:
    - [str_float x] is [str(x)] of a float;
    - [py_float s] is [float(s)] and [py_int s] is [int(s)] of a [str]
      ([None] when they raise [ValueError]);
    - [py_eval s] is [eval(s)];
    - [py_exec program] is the behaviour of [exec(program)];
    - [datetime_now n] is the [n]-th reading of [datetime.now()], in
      microseconds. *)
Record runtime : Type := mkRuntime {
  str_float : Q -> string;
  py_float : string -> option Q;
  py_int : string -> option Z;
  py_eval : string -> res pyval;
  py_exec : string -> prog;
  datetime_now : nat -> Z
}.

Section Runtime.

Variable py : runtime.

(** [str(value)] *)
Definition py_str (value : pyval) : string :=
  match value with
  | VStr s => s
  | VInt n => str_of_Z n
  | VFloat x => str_float py x
  | VBool true => "True"
  | VBool false => "False"
  end.

(** [float(value)] *)
Definition float_of (value : pyval) : res Q :=
  match value with
  | VStr s =>
      match py_float py s with
      | Some x => Val x
      | None => Exc (ValueError "could not convert string to float")
      end
  | VInt n => Val (inject_Z n)
  | VFloat x => Val x
  | VBool b => Val (inject_Z (if b then 1 else 0))
  end.

(** [self.local_bnf[key]] *)
Definition bnf_get (key : string) : M bnf_value :=
  self ← get;
  match local_bnf self !! key with
  | Some v => ret v
  | None => raise (KeyError key)
  end.

(** [self.local_bnf[key] = value] *)
Definition bnf_set (key : string) (value : bnf_value) : M unit :=
  modify (fun self => with_local_bnf (<[key := value]> (local_bnf self)) self).

(** [value[0]] *)
Definition index0 (value : bnf_value) : res pyval :=
  match value with
  | BList (v :: _) => Val v
  | BList [] => Exc IndexError
  | BStr (String c _) => Val (VStr (String c ""))
  | BStr EmptyString => Exc IndexError
  end.

Definition set_bnf_variable (variable_name : string) (value : pyarg) : M unit :=
  match value with
  | ArgList l => bnf_set variable_name (BList l)
  | ArgVal v => bnf_set variable_name (BList [VStr (py_str v)])
  end.

Definition resolve_variable (variable : string) : M string :=
  values ← bnf_get variable;
  codon ← _get_codon;
  value ← lift (_select_choice codon values);
  ret (py_str value).

(** One pass of [while position < len(prg_list)].  [todo] is
    [prg_list[position:]] and [done] is [prg_list[:position]] reversed, so
    [position > 0] is [done <> []] and [prg_list[position - 1]] is the head
    of [done].  Deleting an item leaves [position] where it is. *)
Fixpoint map_pass (check_stoplist : bool) (todo done : list string) (continue_map : bool)
  : M (list string * bool) :=
  match todo with
  | [] => ret (rev done, continue_map)
  | item :: todo' =>
      if strip_is_empty item then map_pass check_stoplist todo' done continue_map
      else if is_variable item then
        let status :=
          match done with
          | prev :: _ => negb (check_stoplist && on_stoplist prev)
          | [] => true
          end in
        '(item, continue_map) ←
          (if status then value ← resolve_variable item; ret (value, true)
           else ret (item, continue_map));
        match todo' with
        | [] => raise IndexError
        | _ :: todo'' => map_pass check_stoplist todo'' (item :: done) continue_map
        end
      else map_pass check_stoplist todo' (item :: done) continue_map
  end.

(** [elapsed = datetime.now() - self.starttime], then [elapsed.seconds]: the
    seconds of the difference, without its days. *)
Definition elapsed_seconds : M Z :=
  self ← get;
  modify (with_clock_reads (S (clock_reads self)));;
  match starttime self with
  | None => raise TypeError
  | Some t0 => ret (((datetime_now py (clock_reads self) - t0) / 1000000) mod 86400)%Z
  end.

Definition fail_mapping (msg : string) : M string :=
  modify (fun self => with_errors (errors self ++ [msg]) self);;
  raise (StandardError msg).

(** [len(program) > self._max_program_length]; an [int] is greater than
    [None] in Python 2. *)
Definition beyond_max_program_length (program : string) (self : Genotype) : bool :=
  match _max_program_length self with
  | None => true
  | Some m => (m <? String.length program)%nat
  end.

Definition str_of_max_program_length (self : Genotype) : string :=
  match _max_program_length self with
  | None => "None"
  | Some m => str_of_Z (Z.of_nat m)
  end.

(** The loop [while incomplete] of [_map_variables]; [fuel] bounds the number
    of passes. *)
Fixpoint map_passes (fuel : nat) (check_stoplist : bool) (prg_list : list string) : M string :=
  match fuel with
  | O => fun _ => OutOfFuel
  | S fuel' =>
      '(prg_list, continue_map) ← map_pass check_stoplist prg_list [] false;
      let program := join prg_list in
      let prg_list := re_split_VARIABLE_FORMAT program in
      elapsed ← elapsed_seconds;
      self ← get;
      if check_stoplist && (snd (_timeouts self) <? elapsed)%Z
      then fail_mapping "elapsed time greater than program timeout"
      else if negb check_stoplist && (fst (_timeouts self) <? elapsed)%Z
      then fail_mapping "elapsed time greater than preprogram timeout"
      else if beyond_max_program_length program self
      then fail_mapping ("program length, " +:+ str_of_Z (Z.of_nat (String.length program))
                         +:+ " is beyond max program length: "
                         +:+ str_of_max_program_length self)
      else if continue_map then map_passes fuel' check_stoplist prg_list
      else ret program
  end.

Definition _map_variables (fuel : nat) (program : string) (check_stoplist : bool) : M string :=
  modify (with_errors []);;
  map_passes fuel check_stoplist (re_split_VARIABLE_FORMAT program).

(** ** The hooks of the generated program *)

Definition conv_int (str_value : string) : res pyval :=
  match py_int py str_value with
  | Some n => Val (VInt n)
  | None => py_eval py str_value
  end.

Definition _fmt_resolved_vars (value : string) (return_type : string) : res pyval :=
  if String.eqb return_type "str" then Val (VStr value)
  else if String.eqb return_type "int" then conv_int value
  else if String.eqb return_type "float" then
    match py_float py value with
    | Some x => Val (VFloat x)
    | None => py_eval py value
    end
  else if String.eqb return_type "bool" then
    if str_contains value "True" then Val (VBool true)
    else if String.eqb value "False" then Val (VBool false)
    else Exc (ValueError "return_type must be either True or False: %s")
  else Exc (ValueError "return_type, %s must be in %s").

Definition runtime_resolve (fuel : nat) (item return_type : string) : M pyval :=
  value ← _map_variables fuel item false;
  lift (_fmt_resolved_vars value return_type).

(** ** Running the program *)

Fixpoint run_prog (fuel : nat) (p : prog) : M unit :=
  match p with
  | Halt => ret tt
  | Throw e => raise e
  | SetBnf variable_name value k =>
      set_bnf_variable variable_name value;;
      run_prog fuel k
  | Resolve item return_type k =>
      fun self =>
        match runtime_resolve fuel item return_type self with
        | Returns v self' => run_prog fuel (k (Val v)) self'
        | Raises e self' => run_prog fuel (k (Exc e)) self'
        | OutOfFuel => OutOfFuel
        end
  end.

Definition _execute_code (fuel : nat) (program : string) : M unit :=
  bnf_set "program" (BStr program);;
  run_prog fuel (py_exec py program).

(** [str(self._fitness_fail)] *)
Definition str_of_fitness_fail (self : Genotype) : string :=
  match _fitness_fail self with
  | None => "None"
  | Some x => str_float py x
  end.

(** [self._map_variables(program, check_stoplist)] on any value: [re.split]
    takes a [str] and raises [TypeError] on anything else, after the errors
    have been reset. *)
Definition _map_variables_of (fuel : nat) (program : pyval) (check_stoplist : bool)
  : M string :=
  match program with
  | VStr text => _map_variables fuel text check_stoplist
  | _ => modify (with_errors []);; raise TypeError
  end.

Definition _map_gene (fuel : nat) : M unit :=
  self ← get;
  bnf_set "<fitness>" (BList [VStr (str_of_fitness_fail self)]);;
  try_except
    (bnf_set BNF_PROGRAM (BList [VStr "mapping variables into program failed"]);;
     start ← bnf_get "<S>";
     start0 ← lift (index0 start);
     program ← _map_variables_of fuel start0 true;
     bnf_set BNF_PROGRAM (BList [VStr program]);;
     _execute_code fuel program)
    (fun _ =>
       program ← bnf_get "program";
       _ ← lift (index0 program);
       ret tt);;
  fitness ← bnf_get "<fitness>";
  fitness0 ← lift (index0 fitness);
  x ← lift (float_of fitness0);
  modify (with_fitness (Some x)).

Definition compute_fitness (fuel : nat) : M (option Q) :=
  _reset_gene_position;;
  _map_gene fuel;;
  self ← get;
  (if _extend_genotype self then _update_genotype else ret tt);;
  self ← get;
  ret (_fitness self).

End Runtime.

End genotypes.

(** * grammatical_evolution.py *)

Module grammatical_evolution.
Import genotypes.

Inductive fitness_type : Type := MAX | MIN | CENTER.

(** Modelled from the spec: the [FitnessList] of [pyneurgen/fitness.py], which
    is not among the sources: one [(score, memberIndex)] row per population
    slot, a fitness mode and an optional target value. *)
Record FitnessList : Type := mkFitnessList {
  _fitness_type : fitness_type;
  _target_value : option Q;
  rows : list (Q * nat)
}.

(** Modelled from the spec: [select()] of a selection strategy of
    [pyneurgen/fitness.py] is a lazy sequence of member indices, which ends
    (elites) or does not (tournament winners, roulette sampling). *)
Inductive lazyseq : Type :=
| Finite (l : list nat)
| Unbounded (f : nat -> nat).

(** A strategy is used through [set_fitness_list] followed by [select()]. *)
Definition strategy : Type := FitnessList -> lazyseq.

Record GrammaticalEvolution : Type := mkGrammaticalEvolution {
  stopping_max_generations : option nat;
  stopping_fitness_landscape : option (FitnessList -> bool);
  _max_fitness_rate : Q;
  _generation : nat;
  fitness_list : FitnessList;
  _maintain_history : bool;
  _fitness_selections : list strategy;
  _population_size : nat;
  population : list Genotype;
  _history : list FitnessList
}.

Definition with_generation (v : nat) (g : GrammaticalEvolution) : GrammaticalEvolution :=
  mkGrammaticalEvolution (stopping_max_generations g) (stopping_fitness_landscape g)
    (_max_fitness_rate g) v (fitness_list g) (_maintain_history g)
    (_fitness_selections g) (_population_size g) (population g) (_history g).

Definition with_history (v : list FitnessList) (g : GrammaticalEvolution)
  : GrammaticalEvolution :=
  mkGrammaticalEvolution (stopping_max_generations g) (stopping_fitness_landscape g)
    (_max_fitness_rate g) (_generation g) (fitness_list g) (_maintain_history g)
    (_fitness_selections g) (_population_size g) (population g) v.

Definition with_fitness_list (v : FitnessList) (g : GrammaticalEvolution)
  : GrammaticalEvolution :=
  mkGrammaticalEvolution (stopping_max_generations g) (stopping_fitness_landscape g)
    (_max_fitness_rate g) (_generation g) v (_maintain_history g)
    (_fitness_selections g) (_population_size g) (population g) (_history g).

(** [round(x)] of Python 2 rounds halves away from zero; [int(round(x))]. *)
Definition int_round (x : Q) : Z :=
  if Qle_bool 0 x then Qfloor (x + (1 # 2)) else Qceiling (x - (1 # 2)).

(** ** Filling the fitness pool *)

(** [for i in fsel.select(): flist.append(i); count += 1; if count == total: break]
    over a sequence that ends. *)
Fixpoint draw_finite (total : Z) (l : list nat) (flist : list nat) (count : Z)
  : list nat * Z :=
  match l with
  | [] => (flist, count)
  | i :: l' =>
      let flist := flist ++ [i] in
      let count := (count + 1)%Z in
      if (count =? total)%Z then (flist, count) else draw_finite total l' flist count
  end.

(** The same loop over a sequence that does not end: [count] reaches [total]
    after [total - count] draws when [count < total], and never otherwise
    ([None]: the loop does not return). *)
Definition draw_unbounded (total : Z) (f : nat -> nat) (flist : list nat) (count : Z)
  : option (list nat * Z) :=
  if (count <? total)%Z
  then Some (flist ++ map f (seq 0 (Z.to_nat (total - count))), total)
  else None.

Definition draw (total : Z) (s : lazyseq) (flist : list nat) (count : Z)
  : option (list nat * Z) :=
  match s with
  | Finite l => Some (draw_finite total l flist count)
  | Unbounded f => draw_unbounded total f flist count
  end.

(** [for fsel in self._fitness_selections: ...] *)
Fixpoint draw_all (total : Z) (fl : FitnessList) (fsels : list strategy)
    (flist : list nat) (count : Z) : option (list nat) :=
  match fsels with
  | [] => Some flist
  | fsel :: fsels' =>
      match draw total (fsel fl) flist count with
      | Some (flist, count) => draw_all total fl fsels' flist count
      | None => None
      end
  end.

(** [self.population[member_no]] for each drawn member; [deepcopy] of a value
    is the value. *)
Fixpoint copy_members (population : list Genotype) (flist : list nat) : res (list Genotype) :=
  match flist with
  | [] => Val []
  | member_no :: flist' =>
      match population !! member_no with
      | None => Exc IndexError
      | Some g => res_bind (copy_members population flist') (fun flist1 => Val (g :: flist1))
      end
  end.

(** [None] when the method does not return.  The product
    [self._max_fitness_rate * float(self._population_size)] is taken in [Q]. *)
Definition _evaluate_fitness (self : GrammaticalEvolution) : option (res (list Genotype)) :=
  let total := int_round (_max_fitness_rate self * inject_Z (Z.of_nat (_population_size self))) in
  match draw_all total (fitness_list self) (_fitness_selections self) [] 0%Z with
  | Some flist => Some (copy_members (population self) flist)
  | None => None
  end.

(** ** Crossover.  [coin] is the result of [randint(0, 1)] and [crosspoint]
    the result of [randint(2, minlength - 2)]. *)

Definition _crossover_function (child1_binary child2_binary : list ascii) (crosspoint : nat)
  : list ascii * list ascii :=
  (take crosspoint child1_binary ++ drop crosspoint child2_binary,
   take crosspoint child2_binary ++ drop crosspoint child1_binary).

(** A method call on a copy of a genotype, followed by [k] on the new state;
    an exception ends the caller, and [None] is a call that ran out of fuel
    (the methods called below take none). *)
Definition call {B} (m : M unit) (self : Genotype) (k : Genotype -> option (res B))
  : option (res B) :=
  match m self with
  | Returns _ self' => k self'
  | Raises e _ => Some (Exc e)
  | OutOfFuel => None
  end.

Definition _crossover (coin : bool) (crosspoint : nat) (parent1 parent2 : Genotype)
  : option (res (Genotype * Genotype)) :=
  let '(child1, child2) := if coin then (parent1, parent2) else (parent2, parent1) in
  let child1_binary := binary_gene child1 in
  let child2_binary := binary_gene child2 in
  let minlength := min (length child1_binary) (length child2_binary) in
  if (Z.of_nat minlength - 2 <? 2)%Z then Some (Exc (ValueError "empty range for randrange()"))
  else
    let '(child1_binary, child2_binary) :=
      _crossover_function (binary_gene child1) (binary_gene child2) crosspoint in
    call (set_binary_gene child1_binary) child1 (fun child1 =>
    call generate_decimal_gene child1 (fun child1 =>
    call (set_binary_gene child2_binary) child2 (fun child2 =>
    call generate_decimal_gene child2 (fun child2 =>
    Some (Val (child1, child2)))))).

(** ** The generational loop *)

Section Engine.

(** Parts of the engine taken as given: the statistics of [FitnessList]
    ([pyneurgen/fitness.py]) and the two phases of a generation, which either
    give the next state of the engine or raise.  The phases read the clock
    and draw random numbers; as the state they receive carries the number of
    the generation, which differs at every turn of the loop, a function of
    the state can stand for any course of those readings and draws. *)
Variable best_value : FitnessList -> Q.
Variable best_member : FitnessList -> nat.
Variable _compute_fitness : GrammaticalEvolution -> res GrammaticalEvolution.
Variable _perform_endcycle : GrammaticalEvolution -> res GrammaticalEvolution.

Definition max_generations_reached (self : GrammaticalEvolution) : bool :=
  match stopping_max_generations self with
  | Some m => (m <=? _generation self)%nat
  | None => false
  end.

Definition target_value_reached (self : GrammaticalEvolution) : bool :=
  let fitl := fitness_list self in
  match _target_value fitl with
  | None => false
  | Some target =>
      match _fitness_type fitl with
      | MAX => Qle_bool target (best_value fitl)
      | MIN => Qle_bool (best_value fitl) target
      | CENTER => Qle_bool (best_value fitl) target
      end
  end.

Definition _continue_processing (self : GrammaticalEvolution) : bool :=
  let status := true in
  let fitl := fitness_list self in
  if max_generations_reached self then false
  else if target_value_reached self then false
  else
    match stopping_fitness_landscape self with
    | Some stopping_function => stopping_function (fitness_list self)
    | None => status
    end.

(** One turn of [while True] up to the test: fitness, then history. *)
Definition evaluate_and_record (self : GrammaticalEvolution) : res GrammaticalEvolution :=
  res_bind (_compute_fitness self) (fun self =>
    Val (if _maintain_history self
         then with_history (_history self ++ [fitness_list self]) self
         else self)).

(** The loop of [run]; [fuel] bounds the number of generations, and [None]
    means that the loop has not ended within it. *)
Fixpoint run_loop (fuel : nat) (self : GrammaticalEvolution)
  : option (res (nat * GrammaticalEvolution)) :=
  match fuel with
  | O => None
  | S fuel' =>
      match evaluate_and_record self with
      | Exc e => Some (Exc e)
      | Val self =>
          if _continue_processing self then
            match _perform_endcycle self with
            | Exc e => Some (Exc e)
            | Val self => run_loop fuel' (with_generation (_generation self + 1) self)
            end
          else Some (Val (best_member (fitness_list self), self))
      end
  end.

Definition run (fuel : nat) (starting_generation : nat) (self : GrammaticalEvolution)
  : option (res (nat * GrammaticalEvolution)) :=
  run_loop fuel (with_generation starting_generation self).

End Engine.

End grammatical_evolution.

(** * Definitions used to state the properties *)

Module props.
Import genotypes grammatical_evolution.

(** Every codon is a byte. *)
Definition codons_in_range (dec_gene : list Z) : Prop :=
  Forall (fun c => 0 <= c <= 255)%Z dec_gene.

(** The eight characters [base10tobase2(c, zfill=8)] gives for a byte. *)
Definition byte_bits (c : Z) : list ascii :=
  match utilities.base10tobase2 c 8 with
  | Val s => s
  | Exc _ => []
  end.

(** [c] is written on eight characters that read back as [c]. *)
Definition byte_roundtrips (n : nat) : bool :=
  match utilities.base10tobase2 (Z.of_nat n) 8 with
  | Val s =>
      (length s =? 8)%nat &&
      match utilities.base2tobase10 s with
      | Val v => (v =? Z.of_nat n)%Z
      | Exc _ => false
      end
  | Exc _ => false
  end.

(** The invariant of the gene: the recorded length is that of the binary
    gene, in bytes. *)
Definition gene_length_consistent (self : Genotype) : Prop :=
  _gene_length self = (length (binary_gene self) / 8)%nat.

(** What the specification asks of the two views of the gene. *)
Definition views_agree (self : Genotype) : Prop :=
  length (decimal_gene self) = (length (binary_gene self) / 8)%nat.

(** [n] successive calls of [_get_codon], with the codons they return. *)
Fixpoint draw_codons (n : nat) : M (list Z) :=
  match n with
  | O => ret []
  | S n' =>
      codon ← _get_codon;
      codons ← draw_codons n';
      ret (codon :: codons)
  end.

(** The genotypes left by the operations that rewrite the binary gene: a
    single mutation of a genotype whose recorded length is consistent, a
    multiple mutation, a crossover (either child), and [set_binary_gene]
    followed by [generate_decimal_gene], as all callers of [set_binary_gene]
    on a new gene do. *)
Inductive rewritten : Genotype -> Prop :=
| after_single_mutate position self self' :
    gene_length_consistent self ->
    _single_mutate position self = Returns tt self' ->
    rewritten self'
| after_multiple_mutate mutation_rate rnd self self' :
    _multiple_mutate mutation_rate rnd self = Returns tt self' ->
    rewritten self'
| after_crossover_child1 coin crosspoint parent1 parent2 child1 child2 :
    _crossover coin crosspoint parent1 parent2 = Some (Val (child1, child2)) ->
    rewritten child1
| after_crossover_child2 coin crosspoint parent1 parent2 child1 child2 :
    _crossover coin crosspoint parent1 parent2 = Some (Val (child1, child2)) ->
    rewritten child2
| after_set_and_generate binary_gene self self1 self2 :
    set_binary_gene binary_gene self = Returns tt self1 ->
    generate_decimal_gene self1 = Returns tt self2 ->
    rewritten self2.

(** ** [compute_fitness] in steps

    The state in which the start symbol is mapped: the cursor is reset, the
    fail value is stored under ["<fitness>"] and the failure message under
    ["program"]. *)
Definition seeded (py : runtime) (self : Genotype) : Genotype :=
  with_local_bnf
    (<[BNF_PROGRAM := BList [VStr "mapping variables into program failed"]]>
       (<["<fitness>" := BList [VStr (str_of_fitness_fail py self)]]> (local_bnf self)))
    (with_position (0, 0)%nat self).

(** The mapping of the start symbol, as the [try] block of [_map_gene]
    starts. *)
Definition map_start (py : runtime) (fuel : nat) : M string :=
  start ← bnf_get "<S>";
  start0 ← lift (index0 start);
  _map_variables_of py fuel start0 true.

(** The rest of the [try] block: the program is recorded and executed. *)
Definition execute_mapped (py : runtime) (fuel : nat) (program : string) : M unit :=
  bnf_set BNF_PROGRAM (BList [VStr program]);;
  _execute_code py fuel program.

(** The [except] block. *)
Definition on_failure : M unit :=
  program ← bnf_get "program";
  _ ← lift (index0 program);
  ret tt.

(** What follows the [try] statement, to the end of [compute_fitness]. *)
Definition finish (py : runtime) : M (option Q) :=
  fitness ← bnf_get "<fitness>";
  fitness0 ← lift (index0 fitness);
  x ← lift (float_of py fitness0);
  modify (with_fitness (Some x));;
  self ← get;
  (if _extend_genotype self then _update_genotype else ret tt);;
  self ← get;
  ret (_fitness self).

(** The program had stored no fitness when it failed, and the entry
    ["program"], where [_execute_code] put its text, still has the first
    element that the [except] block reads. *)
Definition nothing_reported (py : runtime) (self failed : Genotype) : Prop :=
  local_bnf failed !! "<fitness>" = Some (BList [VStr (str_of_fitness_fail py self)]) /\
  exists entry first,
    local_bnf failed !! "program" = Some entry /\ index0 entry = Val first.

(** A failure inside the [try] block of [_map_gene], with the state in which
    the exception was raised: either the mapping of the start symbol raised,
    or the mapped program raised during its execution, before it had reported
    a fitness. *)
Inductive failure_without_report (py : runtime) (fuel : nat) (self : Genotype)
  : Genotype -> Prop :=
| mapping_failed e failed :
    map_start py fuel (seeded py self) = Raises e failed ->
    failure_without_report py fuel self failed
| execution_failed program mapped e failed :
    map_start py fuel (seeded py self) = Returns program mapped ->
    execute_mapped py fuel program mapped = Raises e failed ->
    nothing_reported py self failed ->
    failure_without_report py fuel self failed.

(** ** What a method may change

    Whatever way [m] ends, the state it leaves is related by [R] to the one
    it started from. *)
Definition within (R : Genotype -> Genotype -> Prop) {A} (m : M A) : Prop :=
  forall s,
    match m s with
    | Returns _ s' => R s s'
    | Raises _ s' => R s s'
    | OutOfFuel => True
    end.

(** The grammar mapping leaves the table alone and adds only copies of
    codons to the decimal gene. *)
Definition mapping_frame (s s' : Genotype) : Prop :=
  local_bnf s' = local_bnf s /\
  (codons_in_range (decimal_gene s) -> codons_in_range (decimal_gene s')).

(** The execution of the program adds only copies of codons to the decimal
    gene. *)
Definition codon_frame (s s' : Genotype) : Prop :=
  codons_in_range (decimal_gene s) -> codons_in_range (decimal_gene s').

(** The first [n] members of a lazy sequence (all of them if it ends
    before). *)
Definition first_drawn (n : nat) (s : lazyseq) : list nat :=
  match s with
  | Finite l => take n l
  | Unbounded f => map f (seq 0 n)
  end.

(** A character of a binary gene as [_generate_binary_gene] writes it. *)
Definition is_bit (c : ascii) : bool := Ascii.eqb c "0"%char || Ascii.eqb c "1"%char.

(** A [str] of the characters [0] and [1]. *)
Definition bit_string (s : list ascii) : Prop := Forall (fun c => is_bit c = true) s.

(** The strings of [n] characters [0] and [1]. *)
Fixpoint bit_strings (n : nat) : list (list ascii) :=
  match n with
  | O => [[]]
  | S n' => flat_map (fun s => ["0"%char :: s; "1"%char :: s]) (bit_strings n')
  end.

(** [s] reads as a byte that is written back as [s]. *)
Definition byte_reads_back (s : list ascii) : bool :=
  match utilities.base2tobase10 s with
  | Val v => (0 <=? v)%Z && (v <=? 255)%Z && bool_decide (byte_bits v = s)
  | Exc _ => false
  end.

(** What [_mutate] writes in place of the character [c]. *)
Definition flip_bit (c : ascii) : ascii :=
  if Ascii.eqb c "0"%char then "1"%char else "0"%char.

(** The gene after [_multiple_mutate] has visited the positions from [i]
    on: the character at position [j] is rewritten by [_mutate] when the
    [j]-th draw of [random()] is below the rate. *)
Fixpoint mutated_from (mutation_rate : Q) (rnd : nat -> Q) (i : nat) (gene : list ascii)
  : list ascii :=
  match gene with
  | [] => []
  | c :: gene' =>
      (if Qlt_bool (rnd i) mutation_rate then flip_bit c else c)
        :: mutated_from mutation_rate rnd (S i) gene'
  end.

End props.

(** * Genotypes and engines of the tests, used as concrete inputs *)

Module examples.
Import genotypes grammatical_evolution.

(** A genotype as [Genotype.__init__] leaves it, for a given binary gene and
    its decimal gene. *)
Definition genotype_of (binary : string) (dec_gene : list Z) (max_gene_length : nat)
  : Genotype :=
  {| member_no := 1;
     local_bnf := ∅;
     _max_program_length := None;
     _fitness := None;
     _fitness_fail := None;
     _wrap := true;
     _extend_genotype := true;
     starttime := None;
     _timeouts := (0, 0)%Z;
     _gene_length := length dec_gene;
     _max_gene_length := max_gene_length;
     binary_gene := list_ascii_of_string binary;
     decimal_gene := dec_gene;
     _position := (0, 0)%nat;
     errors := [];
     clock_reads := 0 |}.

(** [test__update_genotype]: binary gene of two bytes, new decimal gene of
    four codons. *)
Definition blank : Genotype :=
  with_gene_length 2 (genotype_of "0000001000000001" [2; 1; 3; 4]%Z 20).

(** [test_set_binary_gene]: a genotype of two codons. *)
Definition two_codons : Genotype := genotype_of "0000001000000001" [2; 1]%Z 20.

(** Parents of one and of two codons. *)
Definition short_parent : Genotype := genotype_of "00000000" [0]%Z 20.
Definition long_parent : Genotype := genotype_of "1111111111111111" [255; 255]%Z 20.

(** [test__get_codon], third part: wrap and extend, a gene of four codons
    and a maximum of five. *)
Definition codon_test : Genotype :=
  genotype_of "00000011001000100000010100000110" [3; 34; 5; 6]%Z 5.

(** A runtime for the examples.  Floats with integral values are written as
    Python writes them (["-1000.0"]) and read back from an integer literal
    with or without [".0"]; [int] reads an integer literal; no expression is
    given to [eval]. *)
Definition without_point_zero (s : string) : string :=
  let n := String.length s in
  if String.eqb (String.substring (n - 2) 2 s) ".0" then String.substring 0 (n - 2) s else s.

Definition read_integer (s : string) : option Z :=
  match NilZero.int_of_string s with
  | Some d => Some (Z.of_int d)
  | None => None
  end.

Definition python (exec : string -> prog) (now : nat -> Z) : runtime :=
  {| str_float := fun x => str_of_Z (Qfloor x) +:+ ".0";
     py_float := fun s => option_map inject_Z (read_integer (without_point_zero s));
     py_int := read_integer;
     py_eval := fun _ => Exc (ProgramError "NameError");
     py_exec := exec;
     datetime_now := now |}.

(** A program that does nothing, and a clock that stands still at the start
    time of the genotypes below. *)
Definition no_program (program : string) : prog := Halt.
Definition at_start (n : nat) : Z := 0%Z.

Definition nl : string := String (ascii_of_nat 10) "".

(** The grammar of the specification's example, as [set_bnf] stores it, on
    the gene [0, 1, 5, 6] of [test__map_variables]. *)
Definition statement_block : string :=
  "a = <v1>" +:+ nl +:+ "b = <v2>" +:+ nl +:+ "fitness = a+b".

Definition mapped_block : string :=
  "a = -1" +:+ nl +:+ "b = 2" +:+ nl +:+ "fitness = a+b".

Definition v1_alternatives : list pyval := [VStr "-1"; VStr "2"; VStr "0"].
Definition v2_alternatives : list pyval := [VStr "1"; VStr "2"; VStr "3"].

Definition example_grammar : gmap string bnf_value :=
  <["<S>" := BList [VStr statement_block]]>
    (<["<v1>" := BList v1_alternatives]>
       (<["<v2>" := BList v2_alternatives]> ∅)).

Definition mapping_test : Genotype :=
  {| member_no := 1;
     local_bnf := example_grammar;
     _max_program_length := Some 1000%nat;
     _fitness := None;
     _fitness_fail := Some (-1000 # 1);
     _wrap := true;
     _extend_genotype := true;
     starttime := Some 0%Z;
     _timeouts := (20, 3600)%Z;
     _gene_length := 4;
     _max_gene_length := 4;
     binary_gene := list_ascii_of_string "00000000000000010000010100000110";
     decimal_gene := [0; 1; 5; 6]%Z;
     _position := (0, 0)%nat;
     errors := [];
     clock_reads := 0 |}.

(** A grammar whose flag is written [T] or [F]. *)
Definition flag_test : Genotype :=
  with_local_bnf (<["<flag>" := BList [VStr "T"; VStr "F"]]> ∅) mapping_test.

(** Five seconds after the start time. *)
Definition five_seconds_later (n : nat) : Z := 5000000%Z.

(** Build deadline of 1 s with an execute deadline of 1000 s, and the
    reverse. *)
Definition short_build_deadline : Genotype := with_timeouts (1, 1000)%Z mapping_test.
Definition short_execute_deadline : Genotype := with_timeouts (1000, 1)%Z mapping_test.

(** An engine of five members whose only fitness selection yields the five
    members from the best one down, as [FitnessElites] does at rate 1, with a
    maximum fitness rate of one quarter. *)
Definition all_members_best_first : strategy := fun _ => Finite [4; 3; 2; 1; 0]%nat.

Definition five_rows : FitnessList :=
  mkFitnessList MAX None
    [(1 # 2, 0); (3 # 2, 1); (5 # 2, 2); (7 # 2, 3); (9 # 2, 4)]%nat.

Definition quarter_engine : GrammaticalEvolution :=
  {| stopping_max_generations := None;
     stopping_fitness_landscape := None;
     _max_fitness_rate := 1 # 4;
     _generation := 0;
     fitness_list := five_rows;
     _maintain_history := false;
     _fitness_selections := [all_members_best_first];
     _population_size := 5;
     population := replicate 5 mapping_test;
     _history := [] |}.

(** An engine whose custom predicate answers [True] while the first score
    is below one, with stand-ins for the phases: computing the fitness sets
    the score of the only member to the number of the generation, and the
    end of the cycle changes nothing. *)
Definition first_score_below_one (fitness_list : FitnessList) : bool :=
  match rows fitness_list with
  | (score, _) :: _ => negb (Qle_bool (1 # 1) score)
  | [] => false
  end.

Definition score_is_generation (self : GrammaticalEvolution) : res GrammaticalEvolution :=
  Val (with_fitness_list
         (mkFitnessList MAX None [(inject_Z (Z.of_nat (_generation self)), 0%nat)]) self).

Definition nothing_bred (self : GrammaticalEvolution) : res GrammaticalEvolution := Val self.

Definition first_score (fitness_list : FitnessList) : Q :=
  match rows fitness_list with
  | (score, _) :: _ => score
  | [] => 0 # 1
  end.

Definition first_member (fitness_list : FitnessList) : nat := 0.

Definition predicate_engine : GrammaticalEvolution :=
  {| stopping_max_generations := None;
     stopping_fitness_landscape := Some first_score_below_one;
     _max_fitness_rate := 1 # 2;
     _generation := 0;
     fitness_list := mkFitnessList MAX None [(0 # 1, 0%nat)];
     _maintain_history := false;
     _fitness_selections := [];
     _population_size := 1;
     population := [mapping_test];
     _history := [] |}.

(** A maximum program length of five characters: the mapped text of the
    example is longer. *)
Definition too_long_test : Genotype := with_max_program_length (Some 5%nat) mapping_test.

(** A program that reports the fitness 5 and then fails, one that reports a
    fitness that is not a number and then fails, and their behaviour under
    [exec]. *)
Definition late_failure : string :=
  "self.set_bnf_variable('<fitness>', 5)" +:+ nl +:+ "raise ValueError('late')".

Definition bad_report : string :=
  "self.set_bnf_variable('<fitness>', 'n/a')" +:+ nl +:+ "raise ValueError('late')".

Definition exec_reports (program : string) : prog :=
  if String.eqb program late_failure
  then SetBnf "<fitness>" (ArgVal (VInt 5)) (Throw (ValueError "late"))
  else if String.eqb program bad_report
  then SetBnf "<fitness>" (ArgVal (VStr "n/a")) (Throw (ValueError "late"))
  else Halt.

(** Python 2 writes a float with twelve significant digits: [str(0.1 + 0.2)]
    is ["0.3"], and [float("0.3")] is the float just below [0.1 + 0.2].  The
    runtime [python2] knows these two floats besides the integral ones. *)
Definition sum_of_tenths : Q := 5404319552844596 # 18014398509481984.
Definition three_tenths : Q := 5404319552844595 # 18014398509481984.

Definition python2 (exec : string -> prog) (now : nat -> Z) : runtime :=
  {| str_float := fun x =>
       if Qeq_bool x sum_of_tenths || Qeq_bool x three_tenths then "0.3"
       else str_float (python exec now) x;
     py_float := fun s =>
       if String.eqb s "0.3" then Some three_tenths else py_float (python exec now) s;
     py_int := read_integer;
     py_eval := fun _ => Exc (ProgramError "NameError");
     py_exec := exec;
     datetime_now := now |}.

(** The fail value [0.1 + 0.2] on a genotype whose mapping fails. *)
Definition rounded_fail_test : Genotype :=
  with_fitness_fail (Some sum_of_tenths) too_long_test.

Definition with_start_symbol (text : string) (self : Genotype) : Genotype :=
  with_local_bnf (<["<S>" := BList [VStr text]]> (local_bnf self)) self.

Definition late_failure_test : Genotype := with_start_symbol late_failure mapping_test.
Definition bad_report_test : Genotype := with_start_symbol bad_report mapping_test.

(** A program that empties the entry ["program"] of the table and then
    fails, and its behaviour under [exec]. *)
Definition emptied_entry : string :=
  "self.set_bnf_variable('program', [])" +:+ nl +:+ "raise ValueError('late')".

Definition exec_empties (program : string) : prog :=
  if String.eqb program emptied_entry
  then SetBnf "program" (ArgList []) (Throw (ValueError "late"))
  else Halt.

Definition emptied_entry_test : Genotype := with_start_symbol emptied_entry mapping_test.

(** A program that fails at once, and its behaviour under [exec]. *)
Definition early_failure : string := "raise ValueError('early')".

Definition exec_fails (program : string) : prog :=
  if String.eqb program early_failure then Throw (ValueError "early") else Halt.

Definition early_failure_test : Genotype := with_start_symbol early_failure mapping_test.

(** [test_compute_fitness]: the start symbol ends by reporting [a + b], and
    the program mapped from the gene [0, 1, 5, 6] computes [-1 + 2]. *)
Definition dq : string := String (ascii_of_nat 34) "".

Definition report_line : string :=
  "self.set_bnf_variable(" +:+ dq +:+ "<fitness>" +:+ dq +:+ ", fitness)".

Definition reporting_block : string :=
  "a = <v1>" +:+ nl +:+ "b = <v2>" +:+ nl +:+ "fitness = a + b" +:+ nl +:+ report_line.

Definition reporting_program : string :=
  "a = -1" +:+ nl +:+ "b = 2" +:+ nl +:+ "fitness = a + b" +:+ nl +:+ report_line.

Definition exec_sum (program : string) : prog :=
  if String.eqb program reporting_program
  then SetBnf "<fitness>" (ArgVal (VInt 1)) Halt
  else Throw (ProgramError "NameError").

Definition reporting_test : Genotype := with_start_symbol reporting_block mapping_test.

(** [test_evaluate_fitness]: rate one half on five members, with the elites
    at rate 0.1 (the best member) followed by the elites at rate 0.75 (the
    four best members). *)
Definition best_member_only : strategy := fun _ => Finite [4]%nat.
Definition four_best_members : strategy := fun _ => Finite [4; 3; 2; 1]%nat.

Definition elites_engine : GrammaticalEvolution :=
  {| stopping_max_generations := None;
     stopping_fitness_landscape := None;
     _max_fitness_rate := 1 # 2;
     _generation := 0;
     fitness_list := five_rows;
     _maintain_history := false;
     _fitness_selections := [best_member_only; four_best_members];
     _population_size := 5;
     population := replicate 5 mapping_test;
     _history := [] |}.

(** [test__get_codon], first and second parts: no wrap with a maximum of
    four codons, and wrap without extension. *)
Definition no_wrap_test : Genotype :=
  {| member_no := 1; local_bnf := ∅; _max_program_length := None; _fitness := None;
     _fitness_fail := None; _wrap := false; _extend_genotype := false;
     starttime := None; _timeouts := (0, 0)%Z; _gene_length := 4; _max_gene_length := 4;
     binary_gene := list_ascii_of_string "00000011001000100000010100000110";
     decimal_gene := [3; 34; 5; 6]%Z; _position := (0, 0)%nat; errors := [];
     clock_reads := 0 |}.

Definition wrap_only_test : Genotype :=
  {| member_no := 1; local_bnf := ∅; _max_program_length := None; _fitness := None;
     _fitness_fail := None; _wrap := true; _extend_genotype := false;
     starttime := None; _timeouts := (0, 0)%Z; _gene_length := 4; _max_gene_length := 5;
     binary_gene := list_ascii_of_string "00000011001000100000010100000110";
     decimal_gene := [3; 34; 5; 6]%Z; _position := (0, 0)%nat; errors := [];
     clock_reads := 0 |}.

End examples.

(* ===== PROPERTIES ===== *)

Section GeneProperties.
Import genotypes grammatical_evolution props.

Lemma byte_table : forallb byte_roundtrips (seq 0 256) = true.
Proof. vm_compute. reflexivity. Qed.

Lemma byte_bits_spec (c : Z) :
  (0 <= c <= 255)%Z ->
  utilities.base10tobase2 c 8 = Val (byte_bits c) /\
  length (byte_bits c) = 8%nat /\
  utilities.base2tobase10 (byte_bits c) = Val c.
Proof.
  intros Hc.
  assert (Hin : In (Z.to_nat c) (seq 0 256)) by (apply in_seq; lia).
  pose proof (proj1 (forallb_forall _ _) byte_table _ Hin) as H.
  unfold byte_roundtrips in H. rewrite Z2Nat.id in H by lia.
  unfold byte_bits.
  destruct (utilities.base10tobase2 c 8) as [s|e]; [|discriminate].
  apply andb_prop in H as [Hlen Hback].
  apply Nat.eqb_eq in Hlen.
  destruct (utilities.base2tobase10 s) as [v|e]; [|discriminate].
  apply Z.eqb_eq in Hback. subst v. auto.
Qed.

Lemma dec2bin_fold (dec_gene : list Z) (acc : list (list ascii)) :
  codons_in_range dec_gene ->
  res_fold (fun bin_gene item =>
              res_bind (utilities.base10tobase2 item 8) (fun s => Val (bin_gene ++ [s])))
           dec_gene acc
  = Val (acc ++ map byte_bits dec_gene).
Proof.
  intros Hr. revert acc.
  induction Hr as [|c dec_gene Hc _ IH]; intros acc; simpl.
  - by rewrite app_nil_r.
  - destruct (byte_bits_spec c Hc) as (-> & _ & _). simpl.
    rewrite IH, <- app_assoc. reflexivity.
Qed.

Lemma dec2bin_gene_bytes (dec_gene : list Z) :
  codons_in_range dec_gene ->
  _dec2bin_gene dec_gene = Val (concat (map byte_bits dec_gene)).
Proof.
  intros Hr. unfold _dec2bin_gene. rewrite dec2bin_fold by done. reflexivity.
Qed.

Lemma length_bytes (dec_gene : list Z) :
  codons_in_range dec_gene ->
  length (concat (map byte_bits dec_gene)) = (length dec_gene * 8)%nat.
Proof.
  induction 1 as [|c dec_gene Hc _ IH]; simpl; [done|].
  rewrite length_app, IH. destruct (byte_bits_spec c Hc) as (_ & -> & _). lia.
Qed.

(** Reading the bytes back, from byte [m] on. *)
Lemma read_bytes_fold (dec_gene : list Z) (pre : list ascii) (m : nat) (acc : list Z) :
  codons_in_range dec_gene ->
  length pre = (m * 8)%nat ->
  res_fold (fun dec_geno i =>
              res_bind (utilities.base2tobase10
                          (slice (pre ++ concat (map byte_bits dec_gene)) i (i + 8)))
                       (fun str_trans => Val (dec_geno ++ [str_trans])))
           (map (fun k => k * 8)%nat (seq m (length dec_gene))) acc
  = Val (acc ++ dec_gene).
Proof.
  intros Hr. revert pre m acc.
  induction Hr as [|c dec_gene Hc _ IH]; intros pre m acc Hpre; simpl.
  - by rewrite app_nil_r.
  - destruct (byte_bits_spec c Hc) as (_ & Hlen & Hback).
    assert (Hslice : slice (pre ++ byte_bits c ++ concat (map byte_bits dec_gene))
                       (m * 8) (m * 8 + 8) = byte_bits c).
    { unfold slice. rewrite drop_app_length' by done.
      replace (m * 8 + 8 - m * 8)%nat with 8%nat by lia.
      rewrite take_app_length' by done. reflexivity. }
    rewrite Hslice, Hback. simpl.
    specialize (IH (pre ++ byte_bits c) (S m) (acc ++ [c])).
    rewrite <- !app_assoc in IH. simpl in IH.
    apply IH. rewrite length_app, Hlen, Hpre. lia.
Qed.

Lemma set_binary_gene_spec (b : list ascii) (self : Genotype) :
  let trunc := take (length b - length b mod 8) b in
  set_binary_gene b self
  = Returns tt (with_gene_length (length trunc / 8) (with_binary_gene trunc self)).
Proof. reflexivity. Qed.

Lemma res_fold_append_length {A B} (f : A -> res B) (l : list A) (acc r : list B) :
  res_fold (fun acc x => res_bind (f x) (fun y => Val (acc ++ [y]))) l acc = Val r ->
  length r = (length acc + length l)%nat.
Proof.
  revert acc. induction l as [|x l IH]; intros acc; simpl.
  - intros [= <-]. lia.
  - destruct (f x) as [y|e]; simpl; [|discriminate].
    intros H. apply IH in H. rewrite length_app in H. simpl in H. lia.
Qed.

(** What [generate_decimal_gene] leaves when it returns: as many codons as
    [_gene_length] says, and the binary gene as it was. *)
Lemma generate_decimal_gene_returns (self self' : Genotype) :
  generate_decimal_gene self = Returns tt self' ->
  length (decimal_gene self') = _gene_length self /\
  binary_gene self' = binary_gene self /\
  _gene_length self' = _gene_length self.
Proof.
  unfold generate_decimal_gene, bind, get.
  destruct (_gene_length self =? 0)%nat; [discriminate|].
  unfold lift.
  destruct (res_fold _ _ _) as [dec_geno|e] eqn:Hfold; [|discriminate].
  intros [= <-]. simpl.
  apply (res_fold_append_length (fun i => utilities.base2tobase10
           (slice (binary_gene self) i (i + 8)))) in Hfold.
  rewrite length_map, length_seq in Hfold. simpl in Hfold. auto.
Qed.

(** Setting the bytes of a decimal gene, then regenerating, gives it back. *)
Lemma set_then_generate (self : Genotype) (dec_gene : list Z) :
  dec_gene <> [] ->
  codons_in_range dec_gene ->
  let b := concat (map byte_bits dec_gene) in
  exists self1 self2,
    set_binary_gene b self = Returns tt self1 /\
    binary_gene self1 = b /\
    _gene_length self1 = length dec_gene /\
    decimal_gene self1 = decimal_gene self /\
    generate_decimal_gene self1 = Returns tt self2 /\
    decimal_gene self2 = dec_gene /\
    binary_gene self2 = b.
Proof.
  intros Hne Hr b.
  assert (Hlen : length b = (length dec_gene * 8)%nat) by (apply length_bytes; done).
  assert (Htrunc : take (length b - length b mod 8) b = b).
  { rewrite Hlen, Nat.Div0.mod_mul, Nat.sub_0_r, <- Hlen. apply firstn_all. }
  eexists _, _. split; [apply set_binary_gene_spec|].
  cbv zeta. rewrite Htrunc, Hlen, Nat.div_mul by lia. simpl.
  split; [done|]. split; [done|]. split; [done|].
  unfold generate_decimal_gene, bind, get. simpl.
  destruct (length dec_gene =? 0)%nat eqn:H0.
  { apply Nat.eqb_eq in H0. destruct dec_gene; [done|discriminate]. }
  pose proof (read_bytes_fold dec_gene [] 0 [] Hr eq_refl) as Hfold.
  simpl in Hfold. fold b in Hfold. rewrite Hfold. simpl. auto.
Qed.

(** C10. For every non-empty decimal gene whose codons all lie in [0,255]:
    converting it to a binary gene gives eight bits per codon; setting that
    binary gene and regenerating the decimal gene reproduces the original
    codon sequence; hence [_update_genotype], which sets the binary gene from
    the decimal gene, leaves the decimal gene unchanged, and regenerating it
    afterwards gives it again. *)
Theorem decimal_gene_roundtrip (self : Genotype) (dec_gene : list Z) :
  dec_gene <> [] ->
  codons_in_range dec_gene ->
  exists b self1 self2,
    _dec2bin_gene dec_gene = Val b /\
    length b = (8 * length dec_gene)%nat /\
    set_binary_gene b self = Returns tt self1 /\
    generate_decimal_gene self1 = Returns tt self2 /\
    decimal_gene self2 = dec_gene /\
    (decimal_gene self = dec_gene ->
     exists self3 self4,
       _update_genotype self = Returns tt self3 /\
       decimal_gene self3 = dec_gene /\
       generate_decimal_gene self3 = Returns tt self4 /\
       decimal_gene self4 = dec_gene).
Proof.
  intros Hne Hr.
  destruct (set_then_generate self dec_gene Hne Hr)
    as (self1 & self2 & Hset & Hb1 & Hgl & Hd1 & Hgen & Hd2 & Hb2).
  exists (concat (map byte_bits dec_gene)), self1, self2.
  split; [by apply dec2bin_gene_bytes|].
  split; [rewrite length_bytes by done; lia|].
  split; [done|]. split; [done|]. split; [done|].
  intros Hself. exists self1, self2.
  split.
  - unfold _update_genotype, bind, get, lift. rewrite Hself.
    rewrite dec2bin_gene_bytes by done. exact Hset.
  - rewrite Hd1. auto.
Qed.

(** The bytes of the gene [2, 1, 3, 4] of the tests. *)
Lemma decimal_gene_roundtrip_witness :
  exists b self1 self2,
    _dec2bin_gene [2; 1; 3; 4]%Z = Val b /\
    length b = (8 * 4)%nat /\
    set_binary_gene b examples.blank = Returns tt self1 /\
    generate_decimal_gene self1 = Returns tt self2 /\
    decimal_gene self2 = [2; 1; 3; 4]%Z /\
    (decimal_gene examples.blank = [2; 1; 3; 4]%Z ->
     exists self3 self4,
       _update_genotype examples.blank = Returns tt self3 /\
       decimal_gene self3 = [2; 1; 3; 4]%Z /\
       generate_decimal_gene self3 = Returns tt self4 /\
       decimal_gene self4 = [2; 1; 3; 4]%Z).
Proof.
  apply (decimal_gene_roundtrip examples.blank [2; 1; 3; 4]%Z).
  - discriminate.
  - unfold codons_in_range. repeat constructor; lia.
Defined.

Lemma set_and_generate_views (b : list ascii) (self self1 self2 : Genotype) :
  set_binary_gene b self = Returns tt self1 ->
  generate_decimal_gene self1 = Returns tt self2 ->
  views_agree self2.
Proof.
  rewrite set_binary_gene_spec. intros [= <-] Hgen.
  apply generate_decimal_gene_returns in Hgen as (Hlen & Hbin & _).
  unfold views_agree. rewrite Hlen, Hbin. reflexivity.
Qed.

Lemma mutate_length (gene gene' : list ascii) (position : nat) :
  _mutate gene position = Val gene' -> length gene' = length gene.
Proof.
  unfold _mutate. destruct (gene !! position) as [c|] eqn:Hc; [|discriminate].
  apply lookup_lt_Some in Hc.
  destruct (Ascii.eqb c "0"); intros [= <-];
    rewrite length_app; simpl; rewrite length_take, length_drop; lia.
Qed.

Lemma crossover_children (coin : bool) (crosspoint : nat)
    (parent1 parent2 child1 child2 : Genotype) :
  _crossover coin crosspoint parent1 parent2 = Some (Val (child1, child2)) ->
  let first := if coin then parent1 else parent2 in
  let second := if coin then parent2 else parent1 in
  let genes := _crossover_function (binary_gene first) (binary_gene second) crosspoint in
  exists mid1 mid2,
    set_binary_gene (fst genes) first = Returns tt mid1 /\
    generate_decimal_gene mid1 = Returns tt child1 /\
    set_binary_gene (snd genes) second = Returns tt mid2 /\
    generate_decimal_gene mid2 = Returns tt child2.
Proof.
  unfold _crossover. intros H.
  assert (Hpair : (if coin then (parent1, parent2) else (parent2, parent1))
                  = (if coin then parent1 else parent2, if coin then parent2 else parent1))
    by (destruct coin; reflexivity).
  rewrite Hpair in H. cbv zeta.
  set (first := if coin then parent1 else parent2) in *.
  set (second := if coin then parent2 else parent1) in *.
  destruct (_ <? 2)%Z; [discriminate|].
  destruct (_crossover_function _ _ _) as [b1 b2]. simpl.
  unfold call in H.
  rewrite (set_binary_gene_spec b1) in H.
  destruct (generate_decimal_gene _) as [[] c1|e c1|] eqn:Hg1 in H; try discriminate.
  rewrite (set_binary_gene_spec b2) in H.
  destruct (generate_decimal_gene _) as [[] c2|e c2|] eqn:Hg2 in H; try discriminate.
  injection H as <- <-.
  eexists _, _. rewrite !set_binary_gene_spec. eauto.
Qed.

(** When the binary genes of both parents are whole bytes, the children carry
    the spliced genes as [_crossover_function] returns them. *)
Lemma crossover_keeps_spliced_genes (coin : bool) (crosspoint : nat)
    (parent1 parent2 child1 child2 : Genotype) :
  (length (binary_gene parent1) mod 8 = 0)%nat ->
  (length (binary_gene parent2) mod 8 = 0)%nat ->
  (crosspoint <= min (length (binary_gene parent1)) (length (binary_gene parent2)))%nat ->
  _crossover coin crosspoint parent1 parent2 = Some (Val (child1, child2)) ->
  (binary_gene child1, binary_gene child2)
  = _crossover_function (binary_gene (if coin then parent1 else parent2))
                        (binary_gene (if coin then parent2 else parent1)) crosspoint.
Proof.
  intros H1 H2 Hk Hc.
  apply crossover_children in Hc as (mid1 & mid2 & Hs1 & Hg1 & Hs2 & Hg2).
  rewrite set_binary_gene_spec in Hs1, Hs2. injection Hs1 as <-. injection Hs2 as <-.
  apply generate_decimal_gene_returns in Hg1 as (_ & -> & _).
  apply generate_decimal_gene_returns in Hg2 as (_ & -> & _).
  simpl. unfold _crossover_function. simpl.
  assert (Hwhole : forall a b : list ascii,
             (length a mod 8 = 0)%nat -> (length b mod 8 = 0)%nat ->
             (crosspoint <= length a)%nat -> (crosspoint <= length b)%nat ->
             let c := take crosspoint a ++ drop crosspoint b in
             take (length c - length c mod 8) c = c).
  { intros a b Ha Hb Hka Hkb c.
    assert (Hlen : length c = length b).
    { unfold c. rewrite length_app, length_take, length_drop. lia. }
    rewrite Hlen, Hb, Nat.sub_0_r, <- Hlen. apply firstn_all. }
  destruct coin; f_equal; apply Hwhole; auto; lia.
Qed.

(** The methods [_crossover] calls take no fuel: it returns or raises. *)
Lemma crossover_ends (coin : bool) (crosspoint : nat) (parent1 parent2 : Genotype) :
  _crossover coin crosspoint parent1 parent2 <> None.
Proof.
  assert (Hgen : forall s, generate_decimal_gene s <> OutOfFuel).
  { intros s. unfold generate_decimal_gene, bind, get, lift, modify, raise.
    destruct (_gene_length s =? 0)%nat; [discriminate|].
    destruct (res_fold _ _ _); discriminate. }
  unfold _crossover.
  destruct (if coin then (parent1, parent2) else (parent2, parent1)) as [child1 child2].
  destruct (_ <? 2)%Z; [discriminate|].
  destruct (_crossover_function _ _ _) as [b1 b2].
  unfold call. rewrite set_binary_gene_spec.
  destruct (generate_decimal_gene _) as [[] c1|e c1|] eqn:H1;
    [|discriminate|exfalso; exact (Hgen _ H1)].
  rewrite set_binary_gene_spec. clear H1.
  destruct (generate_decimal_gene _) as [[] c2|e c2|] eqn:H2;
    [discriminate|discriminate|exfalso; exact (Hgen _ H2)].
Qed.

(** C7 (amended). Immediately after a single mutation of a genotype whose
    recorded gene length is that of its binary gene, after a multiple
    mutation, after a crossover, and after [set_binary_gene] followed by
    [generate_decimal_gene], the length of the decimal gene is the length of
    the binary gene divided by 8. *)
Theorem rewritten_views_agree (self : Genotype) :
  rewritten self -> views_agree self.
Proof.
  intros H. destruct H as
    [position self self' Hcons Hm
    |mutation_rate rnd self self' Hm
    |coin crosspoint parent1 parent2 child1 child2 Hc
    |coin crosspoint parent1 parent2 child1 child2 Hc
    |b self self1 self2 Hset Hgen].
  - unfold _single_mutate, bind, get, lift, modify in Hm.
    destruct (_gene_length self * 8 =? 0)%nat; [discriminate|].
    destruct (_mutate (binary_gene self) position) as [gene'|e] eqn:Hmut; [|discriminate].
    apply mutate_length in Hmut.
    apply generate_decimal_gene_returns in Hm as (Hlen & Hbin & _).
    unfold views_agree. rewrite Hlen, Hbin. simpl. rewrite Hmut. exact Hcons.
  - unfold _multiple_mutate in Hm.
    destruct (Qlt_bool mutation_rate 0); [discriminate|].
    destruct (Qlt_bool 1 mutation_rate); [discriminate|].
    unfold bind, get, lift in Hm.
    destruct (res_fold _ _ _) as [gene'|e]; [|discriminate].
    rewrite set_binary_gene_spec in Hm.
    eapply set_and_generate_views; [apply set_binary_gene_spec|exact Hm].
  - apply crossover_children in Hc as (mid1 & mid2 & Hs1 & Hg1 & _ & _).
    eapply set_and_generate_views; eassumption.
  - apply crossover_children in Hc as (mid1 & mid2 & _ & _ & Hs2 & Hg2).
    eapply set_and_generate_views; eassumption.
  - eapply set_and_generate_views; eassumption.
Qed.

(** A single mutation at bit 3 of the genotype of [test_set_binary_gene]. *)
Lemma rewritten_views_agree_witness :
  exists self',
    _single_mutate 3 examples.two_codons = Returns tt self' /\ views_agree self'.
Proof.
  eexists. split; [vm_compute; reflexivity|].
  apply rewritten_views_agree.
  eapply (after_single_mutate 3 examples.two_codons); vm_compute; reflexivity.
Defined.

(** C7 as stated fails for [set_binary_gene] on its own: the decimal gene is
    not regenerated.  Setting ten bits on a genotype of two codons leaves a
    binary gene of eight bits beside the two old codons.  It also fails for a
    single mutation of a genotype whose [_gene_length] is not that of its
    binary gene, as between the extension of the decimal gene by
    [_get_codon] and [_update_genotype]: five codons are regenerated from a
    binary gene of four bytes. *)
Lemma views_disagree_counterexample :
  (exists self',
      set_binary_gene (list_ascii_of_string "0110100101") examples.two_codons
        = Returns tt self' /\
      length (binary_gene self') = 8%nat /\
      length (decimal_gene self') = 2%nat /\
      ~ views_agree self') /\
  (exists codons extended self',
      draw_codons 5 examples.codon_test = Returns codons extended /\
      _single_mutate 3 extended = Returns tt self' /\
      length (binary_gene self') = 32%nat /\
      length (decimal_gene self') = 5%nat /\
      ~ views_agree self').
Proof.
  split.
  - eexists. split; [vm_compute; reflexivity|].
    split; [reflexivity|]. split; [reflexivity|].
    unfold views_agree. simpl. discriminate.
  - eexists _, _, _. split; [vm_compute; reflexivity|].
    split; [vm_compute; reflexivity|].
    split; [reflexivity|]. split; [reflexivity|].
    unfold views_agree. simpl. discriminate.
Qed.

(** C6 (amended). For every two binary genes and every crosspoint [k] in
    [2, min(len1, len2) - 2], splicing the two children again at [k] gives
    back the two parents, and each child has the length of the parent that
    gave its tail (the other parent): its own parent's length when the two
    parents are equally long. *)
Theorem crossover_resplice (parent1 parent2 : list ascii) (k : nat) :
  (2 <= k)%nat ->
  (Z.of_nat k <= Z.of_nat (min (length parent1) (length parent2)) - 2)%Z ->
  let children := _crossover_function parent1 parent2 k in
  _crossover_function (fst children) (snd children) k = (parent1, parent2) /\
  length (fst children) = length parent2 /\
  length (snd children) = length parent1 /\
  (length parent1 = length parent2 ->
   length (fst children) = length parent1 /\ length (snd children) = length parent2).
Proof.
  intros Hk2 Hk. simpl.
  assert (H1 : (k <= length parent1)%nat) by lia.
  assert (H2 : (k <= length parent2)%nat) by lia.
  assert (Ht1 : length (take k parent1) = k) by (rewrite length_take; lia).
  assert (Ht2 : length (take k parent2) = k) by (rewrite length_take; lia).
  unfold _crossover_function.
  rewrite !take_app_length', !drop_app_length' by done.
  rewrite !take_drop, !length_app, !length_drop, Ht1, Ht2.
  repeat split; lia.
Qed.

Lemma crossover_resplice_witness :
  let parent1 := list_ascii_of_string "000000000011111" in
  let parent2 := list_ascii_of_string "111111111100000" in
  let children := _crossover_function parent1 parent2 10 in
  _crossover_function (fst children) (snd children) 10 = (parent1, parent2) /\
  length (fst children) = length parent2 /\
  length (snd children) = length parent1 /\
  (length parent1 = length parent2 ->
   length (fst children) = length parent1 /\ length (snd children) = length parent2).
Proof.
  apply (crossover_resplice (list_ascii_of_string "000000000011111")
                            (list_ascii_of_string "111111111100000") 10).
  - lia.
  - vm_compute. discriminate.
Defined.

(** C6 as stated fails when the parents differ in length: crossing a parent
    of 8 bits with one of 16 bits at crosspoint 3 gives the first child,
    copied from the parent of 8 bits, a binary gene of 16 bits. *)
Lemma crossover_length_counterexample :
  exists child1 child2,
    _crossover true 3 examples.short_parent examples.long_parent
      = Some (Val (child1, child2)) /\
    length (binary_gene examples.short_parent) = 8%nat /\
    length (binary_gene child1) = 16%nat /\
    length (binary_gene examples.long_parent) = 16%nat /\
    length (binary_gene child2) = 8%nat /\
    length (binary_gene child1) <> length (binary_gene examples.short_parent) /\
    length (binary_gene child2) <> length (binary_gene examples.long_parent).
Proof.
  eexists _, _. split; [vm_compute; reflexivity|].
  repeat split; simpl; discriminate.
Qed.

End GeneProperties.

Section CursorProperties.
Import genotypes grammatical_evolution props.

(** Once the number of codons drawn equals the length of the gene, every
    draw of a wrapping, extending genotype appends a codon: nothing in
    [_get_codon] compares the length with [_max_gene_length]. *)
Lemma get_codon_appends (self : Genotype) :
  _wrap self = true ->
  _extend_genotype self = true ->
  snd (_position self) = length (decimal_gene self) ->
  (fst (_position self) < length (decimal_gene self))%nat ->
  exists codon self',
    _get_codon self = Returns codon self' /\
    _wrap self' = true /\
    _extend_genotype self' = true /\
    snd (_position self') = length (decimal_gene self') /\
    (fst (_position self') < length (decimal_gene self'))%nat /\
    length (decimal_gene self') = S (length (decimal_gene self)) /\
    _max_gene_length self' = _max_gene_length self.
Proof.
  intros Hw He Hs Hp.
  unfold _get_codon, bind, get, modify, ret.
  destruct (_position self) as [position sequence_no] eqn:Hpos. simpl in Hs, Hp.
  rewrite Hw, He. simpl.
  destruct (lookup_lt_is_Some_2 (decimal_gene self) position Hp) as [codon Hc].
  rewrite Hc. subst sequence_no. rewrite Nat.eqb_refl. simpl.
  eexists _, _. split; [reflexivity|]. simpl.
  rewrite length_app. simpl.
  repeat split; try lia; try assumption.
  destruct (position + 1 =? length (decimal_gene self))%nat; simpl; lia.
Qed.

Lemma draw_codons_grow (n : nat) (self : Genotype) :
  _wrap self = true ->
  _extend_genotype self = true ->
  snd (_position self) = length (decimal_gene self) ->
  (fst (_position self) < length (decimal_gene self))%nat ->
  exists codons self',
    draw_codons n self = Returns codons self' /\
    length (decimal_gene self') = (length (decimal_gene self) + n)%nat /\
    _max_gene_length self' = _max_gene_length self.
Proof.
  revert self. induction n as [|n IH]; intros self Hw He Hs Hp; simpl.
  - eexists _, _. split; [reflexivity|]. split; [lia|done].
  - destruct (get_codon_appends self Hw He Hs Hp)
      as (codon & self1 & Hget & Hw1 & He1 & Hs1 & Hp1 & Hlen1 & Hmax1).
    destruct (IH self1 Hw1 He1 Hs1 Hp1) as (codons & self2 & Hdraw & Hlen2 & Hmax2).
    exists (codon :: codons), self2.
    unfold bind. rewrite Hget, Hdraw. split; [reflexivity|].
    split; [lia|congruence].
Qed.

(** C5 (the code departs from it). On the genotype of [test__get_codon]
    (gene [3, 34, 5, 6], wrap and extend set, maximum length 5) six calls of
    [_get_codon] return 3, 34, 5, 6, 3, 34 and leave a decimal gene of six
    codons, one more than [_max_gene_length]. *)
Theorem get_codon_exceeds_max_gene_length :
  exists self',
    draw_codons 6 examples.codon_test = Returns [3; 34; 5; 6; 3; 34]%Z self' /\
    decimal_gene self' = [3; 34; 5; 6; 3; 34]%Z /\
    _max_gene_length self' = 5%nat /\
    (_max_gene_length self' < length (decimal_gene self'))%nat.
Proof.
  eexists. split; [vm_compute; reflexivity|]. simpl. repeat split. lia.
Qed.

End CursorProperties.

Section MappingProperties.
Import genotypes grammatical_evolution props.

Lemma select_choice_in_range (codon : Z) (alternatives : list pyval) :
  alternatives <> [] ->
  exists choice,
    alternatives !! Z.to_nat (codon mod Z.of_nat (length alternatives)) = Some choice /\
    _select_choice codon (BList alternatives) = Val choice.
Proof.
  intros Hne. unfold _select_choice.
  assert (Hlen : (0 < length alternatives)%nat) by (destruct alternatives; [done|simpl; lia]).
  destruct (length alternatives =? 0)%nat eqn:H0; [apply Nat.eqb_eq in H0; lia|].
  pose proof (Z.mod_pos_bound codon (Z.of_nat (length alternatives))) as Hb.
  destruct (lookup_lt_is_Some_2 alternatives
              (Z.to_nat (codon mod Z.of_nat (length alternatives)))) as [choice Hc]; [lia|].
  exists choice. rewrite Hc. auto.
Qed.

(** C1. For every non-empty list of alternatives and every codon [c >= 0],
    [_select_choice] returns the element at index [c mod len(alternatives)],
    and [resolve_variable] returns it, as a string, for the codon it draws.
    With the decimal gene [0, 1, 5, 6] and the productions
    [<v1> ::= -1|2|0] and [<v2> ::= 1|2|3], mapping the statement block draws
    codon 0, which selects [-1] for [<v1>], then codon 1, which selects [2]
    for [<v2>], and gives the text ["a = -1\nb = 2\nfitness = a+b"]. *)
Theorem choice_is_codon_modulo_length
    (py : runtime) (codon : Z) (alternatives : list pyval) :
  alternatives <> [] ->
  (0 <= codon)%Z ->
  exists choice,
    alternatives !! Z.to_nat (codon mod Z.of_nat (length alternatives)) = Some choice /\
    _select_choice codon (BList alternatives) = Val choice /\
    (forall variable self self',
        local_bnf self !! variable = Some (BList alternatives) ->
        _get_codon self = Returns codon self' ->
        resolve_variable py variable self = Returns (py_str py choice) self') /\
    (let python := examples.python examples.no_program examples.at_start in
     exists self1 self2 self3,
       _get_codon examples.mapping_test = Returns 0%Z self1 /\
       resolve_variable python "<v1>" examples.mapping_test = Returns "-1" self1 /\
       _get_codon self1 = Returns 1%Z self2 /\
       resolve_variable python "<v2>" self1 = Returns "2" self2 /\
       _map_variables python 2 examples.statement_block true examples.mapping_test
         = Returns examples.mapped_block self3 /\
       _position self3 = (2, 2)%nat).
Proof.
  intros Hne _.
  destruct (select_choice_in_range codon alternatives Hne) as (choice & Hidx & Hsel).
  exists choice. split; [done|]. split; [done|]. split.
  - intros variable self self' Hbnf Hget.
    unfold resolve_variable, bnf_get, bind, get, lift, ret.
    rewrite Hbnf, Hget, Hsel. reflexivity.
  - eexists _, _, _.
    split; [vm_compute; reflexivity|].
    split; [vm_compute; reflexivity|].
    split; [vm_compute; reflexivity|].
    split; [vm_compute; reflexivity|].
    split; [vm_compute; reflexivity|].
    reflexivity.
Qed.

(** Codon 40 on the three alternatives of [test__select_choice]. *)
Lemma choice_is_codon_modulo_length_witness :
  exists choice,
    [VStr "this"; VStr "is"; VStr "test"] !! Z.to_nat (40 mod 3) = Some choice /\
    _select_choice 40 (BList [VStr "this"; VStr "is"; VStr "test"]) = Val choice /\
    choice = VStr "is".
Proof.
  destruct (choice_is_codon_modulo_length
              (examples.python examples.no_program examples.at_start)
              40 [VStr "this"; VStr "is"; VStr "test"])
    as (choice & Hidx & Hsel & _); [discriminate|lia|].
  exists choice. split; [exact Hidx|]. split; [exact Hsel|].
  vm_compute in Hidx. congruence.
Defined.

(** What the boolean coercion does on each string. *)
Lemma fmt_bool_cases (py : runtime) (value : string) :
  _fmt_resolved_vars py value "bool" =
    if str_contains value "True" then Val (VBool true)
    else if String.eqb value "False" then Val (VBool false)
    else Exc (ValueError "return_type must be either True or False: %s").
Proof. reflexivity. Qed.

(** C9 (the code departs from it). The coercion to [bool] tests
    [value in 'True'], which holds for every substring of ["True"]: the
    strings ["T"], ["rue"] and the empty string give [True] instead of an
    error, also through [runtime_resolve] on a grammar whose flag is written
    [T]. The strings ["True"] and ["False"] give [True] and [False], and
    ["not true"] raises. *)
Theorem bool_coercion_accepts_substrings (py : runtime) :
  _fmt_resolved_vars py "T" "bool" = Val (VBool true) /\
  _fmt_resolved_vars py "rue" "bool" = Val (VBool true) /\
  _fmt_resolved_vars py "" "bool" = Val (VBool true) /\
  _fmt_resolved_vars py "True" "bool" = Val (VBool true) /\
  _fmt_resolved_vars py "False" "bool" = Val (VBool false) /\
  _fmt_resolved_vars py "not true" "bool"
    = Exc (ValueError "return_type must be either True or False: %s") /\
  exists self',
    runtime_resolve (examples.python examples.no_program examples.at_start)
      2 "<flag>" "bool" examples.flag_test = Returns (VBool true) self'.
Proof.
  repeat (split; [reflexivity|]).
  eexists. vm_compute. reflexivity.
Qed.

(** C3 (the code departs from it). [_map_gene] maps the start symbol with
    [check_stoplist = True], and that branch of [_map_variables] compares the
    elapsed time with the second element of the timeout pair;
    [runtime_resolve] passes [False] and is compared with the first.  So,
    five seconds after the start:
    - with the pair (1, 1000) the initial mapping succeeds although the
      build-phase deadline of 1 s has passed, and a [runtime_resolve] fails
      with a timeout although the execute-phase deadline of 1000 s has not;
    - with the pair (1000, 1) the initial mapping fails with a timeout
      although the build-phase deadline of 1000 s has not passed. *)
Theorem timeouts_are_swapped :
  let python := examples.python examples.no_program examples.five_seconds_later in
  (exists self',
      _map_variables python 2 examples.statement_block true examples.short_build_deadline
        = Returns examples.mapped_block self' /\
      errors self' = []) /\
  (exists self',
      _map_gene python 2 examples.short_build_deadline = Returns tt self' /\
      local_bnf self' !! "program" = Some (BStr examples.mapped_block) /\
      errors self' = []) /\
  (exists self',
      runtime_resolve python 2 "<v1>" "str" examples.short_build_deadline
        = Raises (StandardError "elapsed time greater than preprogram timeout") self') /\
  (exists self',
      _map_variables python 2 examples.statement_block true examples.short_execute_deadline
        = Raises (StandardError "elapsed time greater than program timeout") self') /\
  (exists self',
      _map_gene python 2 examples.short_execute_deadline = Returns tt self' /\
      local_bnf self' !! "program"
        = Some (BList [VStr "mapping variables into program failed"]) /\
      errors self' = ["elapsed time greater than program timeout"]).
Proof.
  cbv zeta.
  split; [eexists; split; vm_compute; reflexivity|].
  split; [eexists; split; [vm_compute; reflexivity|split; vm_compute; reflexivity]|].
  split; [eexists; vm_compute; reflexivity|].
  split; [eexists; vm_compute; reflexivity|].
  eexists; split; [vm_compute; reflexivity|split; vm_compute; reflexivity].
Qed.

End MappingProperties.

Section EngineProperties.
Import genotypes grammatical_evolution props.

(** C4 (amended). When a custom predicate over the [FitnessList] is
    configured and neither the maximum number of generations nor the target
    value ends the run, [_continue_processing] returns what the predicate
    returns: the generational loop goes on to the next generation in every
    generation in which the predicate returns true, and ends, returning the
    best member, when it returns false. *)
Theorem landscape_predicate_is_continue_flag
    (best_value : FitnessList -> Q) (best_member : FitnessList -> nat)
    (compute endcycle : GrammaticalEvolution -> res GrammaticalEvolution)
    (predicate : FitnessList -> bool) (fuel : nat)
    (self evaluated : GrammaticalEvolution) :
  evaluate_and_record compute self = Val evaluated ->
  stopping_fitness_landscape evaluated = Some predicate ->
  max_generations_reached evaluated = false ->
  target_value_reached best_value evaluated = false ->
  _continue_processing best_value evaluated = predicate (fitness_list evaluated) /\
  (predicate (fitness_list evaluated) = false ->
   run_loop best_value best_member compute endcycle (S fuel) self
   = Some (Val (best_member (fitness_list evaluated), evaluated))) /\
  (predicate (fitness_list evaluated) = true ->
   forall bred,
     endcycle evaluated = Val bred ->
     run_loop best_value best_member compute endcycle (S fuel) self
     = run_loop best_value best_member compute endcycle fuel
         (with_generation (_generation bred + 1) bred)).
Proof.
  intros Heval Hpred Hmax Htarget.
  assert (Hcont : _continue_processing best_value evaluated
                  = predicate (fitness_list evaluated)).
  { unfold _continue_processing. rewrite Hmax, Htarget, Hpred. reflexivity. }
  split; [exact Hcont|]. split.
  - intros Hfalse. simpl. rewrite Heval, Hcont, Hfalse. reflexivity.
  - intros Htrue bred Hbred. simpl. rewrite Heval, Hcont, Htrue, Hbred. reflexivity.
Qed.

(** The engine whose predicate answers true at generation 0: the loop goes
    on to generation 1. *)
Lemma landscape_predicate_is_continue_flag_witness :
  examples.first_score_below_one (fitness_list examples.predicate_engine) = true /\
  run_loop examples.first_score examples.first_member
    examples.score_is_generation examples.nothing_bred 2 examples.predicate_engine
  = run_loop examples.first_score examples.first_member
      examples.score_is_generation examples.nothing_bred 1
      (with_generation 1 examples.predicate_engine).
Proof.
  split; [reflexivity|].
  refine (proj2 (proj2 (landscape_predicate_is_continue_flag
            examples.first_score examples.first_member
            examples.score_is_generation examples.nothing_bred
            examples.first_score_below_one 1
            examples.predicate_engine examples.predicate_engine
            _ _ _ _)) _ examples.predicate_engine _); reflexivity.
Defined.

(** C4 as stated fails: in generation 0 the predicate returns true and the
    run does not end there; it ends in generation 1, where the predicate
    returns false. *)
Lemma landscape_predicate_counterexample :
  exists evaluated0 final,
    evaluate_and_record examples.score_is_generation examples.predicate_engine
      = Val evaluated0 /\
    examples.first_score_below_one (fitness_list evaluated0) = true /\
    _continue_processing examples.first_score evaluated0 = true /\
    run examples.first_score examples.first_member
      examples.score_is_generation examples.nothing_bred 2 0 examples.predicate_engine
      = Some (Val (0%nat, final)) /\
    _generation final = 1%nat /\
    examples.first_score_below_one (fitness_list final) = false.
Proof.
  eexists _, _. split; [reflexivity|].
  split; [reflexivity|]. split; [reflexivity|].
  split; [vm_compute; reflexivity|]. split; reflexivity.
Qed.

(** Drawing from a sequence that ends, while the pool is below [total]. *)
Lemma draw_finite_cut (total : Z) (l flist : list nat) (count : Z) :
  (count < total)%Z ->
  draw_finite total l flist count
  = (flist ++ take (Z.to_nat (total - count)) l,
     (count + Z.of_nat (length (take (Z.to_nat (total - count)) l)))%Z).
Proof.
  revert flist count. induction l as [|i l IH]; intros flist count Hlt; simpl.
  - rewrite take_nil, app_nil_r. simpl. f_equal. lia.
  - destruct (Z.to_nat (total - count)) as [|n] eqn:Hn; [lia|]. simpl.
    destruct (count + 1 =? total)%Z eqn:Heq.
    + apply Z.eqb_eq in Heq. assert (n = 0%nat) as -> by lia.
      rewrite take_0. reflexivity.
    + apply Z.eqb_neq in Heq. rewrite IH by lia.
      replace (Z.to_nat (total - (count + 1))) with n by lia.
      rewrite <- app_assoc. simpl. f_equal. lia.
Qed.

Lemma draw_cut (total : Z) (s : lazyseq) (flist : list nat) (count : Z) :
  (count < total)%Z ->
  exists count',
    draw total s flist count
    = Some (flist ++ first_drawn (Z.to_nat (total - count)) s, count') /\
    (count' = count + Z.of_nat (length (first_drawn (Z.to_nat (total - count)) s)))%Z.
Proof.
  intros Hlt. destruct s as [l|f]; simpl.
  - rewrite draw_finite_cut by done. eauto.
  - unfold draw_unbounded. destruct (count <? total)%Z eqn:H; [|apply Z.ltb_ge in H; lia].
    eexists. split; [reflexivity|]. rewrite length_map, length_seq. lia.
Qed.

(** Strategies that end before the pool is full are drawn whole, in order. *)
Lemma draw_all_exhausted (total : Z) (fl : FitnessList)
    (earlier : list strategy) (drawn : list (list nat)) (rest : list strategy)
    (flist : list nat) (count : Z) :
  Forall2 (fun fsel l => fsel fl = Finite l) earlier drawn ->
  (count + Z.of_nat (length (concat drawn)) < total)%Z ->
  draw_all total fl (earlier ++ rest) flist count
  = draw_all total fl rest (flist ++ concat drawn)
      (count + Z.of_nat (length (concat drawn)))%Z.
Proof.
  intros Hall. revert flist count.
  induction Hall as [|fsel l earlier drawn Hfsel _ IH]; intros flist count Hlt; simpl.
  - rewrite app_nil_r. f_equal. lia.
  - simpl in Hlt. rewrite length_app in Hlt.
    rewrite Hfsel. simpl. rewrite draw_finite_cut by lia.
    rewrite take_ge by lia.
    rewrite IH by lia. rewrite <- app_assoc, length_app. f_equal. lia.
Qed.




End EngineProperties.

Section FitnessProperties.
Import genotypes grammatical_evolution props.

(** ** What a method may change *)

Section Within.

Variable R : Genotype -> Genotype -> Prop.
Hypothesis R_refl : forall s, R s s.
Hypothesis R_trans : forall a b c, R a b -> R b c -> R a c.

Lemma within_ret {A} (a : A) : within R (ret a).
Proof. intros s. apply R_refl. Qed.

Lemma within_raise {A} (e : exn) : within R (@raise A e).
Proof. intros s. apply R_refl. Qed.

Lemma within_get : within R get.
Proof. intros s. apply R_refl. Qed.

Lemma within_lift {A} (r : res A) : within R (lift r).
Proof. intros s. unfold lift. destruct r; apply R_refl. Qed.

Lemma within_modify (f : Genotype -> Genotype) :
  (forall s, R s (f s)) -> within R (modify f).
Proof. intros H s. apply H. Qed.

Lemma within_bind {A B} (m : M A) (k : A -> M B) :
  within R m -> (forall a, within R (k a)) -> within R (bind m k).
Proof.
  intros Hm Hk s. unfold bind. specialize (Hm s).
  destruct (m s) as [a s'|e s'|]; [|done|done].
  specialize (Hk a s'). destruct (k a s') as [b s''|e s''|]; [| |done]; eauto.
Qed.

End Within.

Lemma mapping_frame_refl (s : Genotype) : mapping_frame s s.
Proof. split; auto. Qed.

Lemma mapping_frame_trans (a b c : Genotype) :
  mapping_frame a b -> mapping_frame b c -> mapping_frame a c.
Proof. intros [H1 H2] [H3 H4]. split; [congruence|auto]. Qed.

Ltac frame_step :=
  first
    [ apply within_bind; [exact mapping_frame_trans| |intros ?]
    | apply within_ret; exact mapping_frame_refl
    | apply within_raise; exact mapping_frame_refl
    | apply within_get; exact mapping_frame_refl
    | apply within_lift; exact mapping_frame_refl
    | apply within_modify; intros ?; split; [reflexivity|auto] ].

Lemma get_codon_frame : within mapping_frame _get_codon.
Proof.
  intros s. unfold _get_codon, bind, get, modify, ret, raise.
  destruct (_position s) as [position sequence_no].
  destruct (negb (_wrap s) && _); [apply mapping_frame_refl|].
  destruct (decimal_gene s !! position) as [codon|] eqn:Hc; [|apply mapping_frame_refl].
  destruct (_extend_genotype s && _); simpl; (split; [reflexivity|]); simpl; [|done].
  intros Hr. apply Forall_app. split; [done|].
  constructor; [|constructor].
  unfold codons_in_range in Hr. rewrite Forall_lookup in Hr. exact (Hr _ _ Hc).
Qed.

Lemma bnf_get_frame (key : string) : within mapping_frame (bnf_get key).
Proof.
  unfold bnf_get. frame_step; [frame_step|].
  destruct (local_bnf a !! key); frame_step.
Qed.

Lemma resolve_variable_frame (py : runtime) (variable : string) :
  within mapping_frame (resolve_variable py variable).
Proof.
  unfold resolve_variable.
  frame_step; [apply bnf_get_frame|].
  frame_step; [apply get_codon_frame|].
  repeat frame_step.
Qed.

Lemma map_pass_frame (py : runtime) (check_stoplist : bool)
    (todo done : list string) (continue_map : bool) :
  within mapping_frame (map_pass py check_stoplist todo done continue_map).
Proof.
  assert (H : forall n todo, (length todo < n)%nat ->
            forall done continue_map,
              within mapping_frame (map_pass py check_stoplist todo done continue_map)).
  { clear. induction n as [|n IH]; intros todo Hn done continue_map; [lia|].
    destruct todo as [|item todo']; simpl.
    - frame_step.
    - simpl in Hn.
      destruct (strip_is_empty item); [apply IH; lia|].
      destruct (is_variable item); [|apply IH; lia].
      frame_step.
      + destruct (match done with [] => true | prev :: _ => _ end).
        * frame_step; [apply resolve_variable_frame|frame_step].
        * frame_step.
      + destruct a as [item' continue_map'].
        destruct todo' as [|next todo'']; [frame_step|].
        apply IH. simpl in Hn. lia. }
  apply (H (S (length todo))). lia.
Qed.

Lemma elapsed_seconds_frame (py : runtime) : within mapping_frame (elapsed_seconds py).
Proof.
  unfold elapsed_seconds. frame_step; [frame_step|].
  frame_step; [frame_step|].
  destruct (starttime a); frame_step.
Qed.

Lemma fail_mapping_frame (msg : string) : within mapping_frame (fail_mapping msg).
Proof. unfold fail_mapping. repeat frame_step. Qed.

Lemma map_passes_frame (py : runtime) (fuel : nat) (check_stoplist : bool)
    (prg_list : list string) :
  within mapping_frame (map_passes py fuel check_stoplist prg_list).
Proof.
  revert prg_list. induction fuel as [|fuel IH]; intros prg_list; simpl.
  - intros s. exact I.
  - frame_step; [apply map_pass_frame|].
    destruct a as [prg_list' continue_map].
    frame_step; [apply elapsed_seconds_frame|].
    frame_step; [frame_step|].
    destruct (check_stoplist && _); [apply fail_mapping_frame|].
    destruct (negb check_stoplist && _); [apply fail_mapping_frame|].
    destruct (beyond_max_program_length _ _); [apply fail_mapping_frame|].
    destruct continue_map; [apply IH|frame_step].
Qed.

Lemma map_variables_frame (py : runtime) (fuel : nat) (program : string)
    (check_stoplist : bool) :
  within mapping_frame (_map_variables py fuel program check_stoplist).
Proof.
  unfold _map_variables. frame_step; [frame_step|apply map_passes_frame].
Qed.

Lemma runtime_resolve_frame (py : runtime) (fuel : nat) (item return_type : string) :
  within mapping_frame (runtime_resolve py fuel item return_type).
Proof.
  unfold runtime_resolve. frame_step; [apply map_variables_frame|frame_step].
Qed.

Lemma map_start_frame (py : runtime) (fuel : nat) :
  within mapping_frame (map_start py fuel).
Proof.
  unfold map_start.
  frame_step; [apply bnf_get_frame|].
  frame_step; [frame_step|].
  unfold _map_variables_of.
  destruct a0; try apply map_variables_frame; repeat frame_step.
Qed.

Lemma codon_frame_refl (s : Genotype) : codon_frame s s.
Proof. intros H. exact H. Qed.

Lemma codon_frame_trans (a b c : Genotype) :
  codon_frame a b -> codon_frame b c -> codon_frame a c.
Proof. unfold codon_frame. auto. Qed.

Lemma bnf_set_codons (key : string) (value : bnf_value) :
  within codon_frame (bnf_set key value).
Proof. intros s. unfold bnf_set, modify. intros H. exact H. Qed.

Lemma run_prog_codons (py : runtime) (fuel : nat) (p : prog) :
  within codon_frame (run_prog py fuel p).
Proof.
  induction p as [|e|variable_name value k IH|item return_type k IH]; simpl.
  - apply within_ret, codon_frame_refl.
  - apply within_raise, codon_frame_refl.
  - apply within_bind; [exact codon_frame_trans| |intros _; exact IH].
    unfold set_bnf_variable. destruct value; apply bnf_set_codons.
  - intros s. pose proof (runtime_resolve_frame py fuel item return_type s) as Hr.
    destruct (runtime_resolve py fuel item return_type s) as [v s'|e s'|]; [| |done].
    + specialize (IH (Val v) s').
      destruct (run_prog py fuel (k (Val v)) s') as [u s''|e s''|]; [| |done];
        (eapply codon_frame_trans; [exact (proj2 Hr)|exact IH]).
    + specialize (IH (Exc e) s').
      destruct (run_prog py fuel (k (Exc e)) s') as [u s''|e' s''|]; [| |done];
        (eapply codon_frame_trans; [exact (proj2 Hr)|exact IH]).
Qed.

Lemma execute_mapped_codons (py : runtime) (fuel : nat) (program : string) :
  within codon_frame (execute_mapped py fuel program).
Proof.
  unfold execute_mapped, _execute_code.
  apply within_bind; [exact codon_frame_trans|apply bnf_set_codons|intros _].
  apply within_bind; [exact codon_frame_trans|apply bnf_set_codons|intros _].
  apply run_prog_codons.
Qed.

(** [compute_fitness], step by step. *)
Lemma compute_fitness_cases (py : runtime) (fuel : nat) (self : Genotype) :
  compute_fitness py fuel self =
  match map_start py fuel (seeded py self) with
  | Returns program mapped =>
      match execute_mapped py fuel program mapped with
      | Returns _ executed => finish py executed
      | Raises _ failed => bind on_failure (fun _ => finish py) failed
      | OutOfFuel => OutOfFuel
      end
  | Raises _ failed => bind on_failure (fun _ => finish py) failed
  | OutOfFuel => OutOfFuel
  end.
Proof.
  cbv [compute_fitness _map_gene _reset_gene_position map_start execute_mapped
       _map_variables_of
       try_except finish on_failure bind get modify ret raise lift bnf_get bnf_set
       seeded with_local_bnf with_position str_of_fitness_fail].
  cbn [member_no local_bnf _max_program_length _fitness _fitness_fail _wrap
       _extend_genotype starttime _timeouts _gene_length _max_gene_length
       binary_gene decimal_gene _position errors clock_reads].
  repeat
    match goal with
    | |- context [match ?x with _ => _ end] =>
        lazymatch x with
        | context [match _ with _ => _ end] => fail
        | _ => destruct x
        end
    end; reflexivity.
Qed.

Lemma on_failure_returns (s : Genotype) (v : bnf_value) (w : pyval) :
  local_bnf s !! "program" = Some v ->
  index0 v = Val w ->
  on_failure s = Returns tt s.
Proof.
  intros Hv Hw. unfold on_failure, bnf_get, bind, get, lift, ret.
  rewrite Hv, Hw. reflexivity.
Qed.

Lemma update_genotype_returns (s : Genotype) :
  codons_in_range (decimal_gene s) ->
  exists s', _update_genotype s = Returns tt s' /\ _fitness s' = _fitness s.
Proof.
  intros Hr. unfold _update_genotype, bind, get, lift.
  rewrite dec2bin_gene_bytes by done. rewrite set_binary_gene_spec.
  eexists. split; reflexivity.
Qed.

Lemma finish_returns (py : runtime) (s : Genotype) (text : string) (x : Q) :
  local_bnf s !! "<fitness>" = Some (BList [VStr text]) ->
  py_float py text = Some x ->
  codons_in_range (decimal_gene s) ->
  exists s', finish py s = Returns (Some x) s' /\ _fitness s' = Some x.
Proof.
  intros Hf Hx Hr.
  unfold finish, bnf_get, bind, get, lift, modify, ret.
  rewrite Hf. simpl. rewrite Hx.
  destruct (_extend_genotype _).
  - destruct (update_genotype_returns (with_fitness (Some x) s) Hr) as (s' & -> & Hfit).
    exists s'. rewrite Hfit. auto.
  - eexists. split; reflexivity.
Qed.




End FitnessProperties.

(** * The tests of the repository, on the model *)

Section RepositoryTests.
Import genotypes grammatical_evolution props.

(** [test_set_binary_gene] *)
Example test_set_binary_gene :
  exists self',
    set_binary_gene (list_ascii_of_string "0110100101") examples.two_codons
      = Returns tt self' /\
    binary_gene self' = list_ascii_of_string "01101001" /\
    _gene_length self' = 1%nat.
Proof. eexists. repeat split. Qed.

(** [test_generate_decimal_gene] *)
Example test_generate_decimal_gene :
  exists self',
    (set_binary_gene (list_ascii_of_string "00000010000000010000001100000100");;
     generate_decimal_gene) examples.two_codons = Returns tt self' /\
    decimal_gene self' = [2; 1; 3; 4]%Z /\
    _position self' = (0, 0)%nat.
Proof. eexists. split; [vm_compute; reflexivity|]. split; reflexivity. Qed.

(** [test__dec2bin_gene] *)
Example test__dec2bin_gene :
  _dec2bin_gene [2; 1; 3; 4]%Z
  = Val (list_ascii_of_string "00000010000000010000001100000100").
Proof. vm_compute. reflexivity. Qed.

(** [test__mutate] *)
Example test__mutate :
  _mutate (list_ascii_of_string "1110101") 0 = Val (list_ascii_of_string "0110101") /\
  _mutate (list_ascii_of_string "1110101") 4 = Val (list_ascii_of_string "1110001") /\
  _mutate (list_ascii_of_string "1110101") 6 = Val (list_ascii_of_string "1110100").
Proof. repeat split. Qed.

(** [test__select_choice] *)
Example test__select_choice :
  let selection := BList [VStr "this"; VStr "is"; VStr "test"] in
  _select_choice 0 selection = Val (VStr "this") /\
  _select_choice 40 selection = Val (VStr "is") /\
  _select_choice 65 selection = Val (VStr "test") /\
  _select_choice 1 (BStr "no list") = Exc (ValueError "selection. %s, must be a list").
Proof. repeat split. Qed.

(** [test__get_codon] *)
Example test__get_codon :
  (exists self',
      draw_codons 4 examples.no_wrap_test = Returns [3; 34; 5; 6]%Z self' /\
      _position self' = (4, 4)%nat /\
      exists self'', _get_codon self'
                     = Raises (ValueError "Max length of genotype reached.") self'') /\
  (exists self',
      draw_codons 5 examples.wrap_only_test = Returns [3; 34; 5; 6; 3]%Z self' /\
      _position self' = (1, 5)%nat /\
      length (decimal_gene self') = 4%nat) /\
  (exists self',
      draw_codons 5 examples.codon_test = Returns [3; 34; 5; 6; 3]%Z self' /\
      _position self' = (1, 5)%nat /\
      length (decimal_gene self') = 5%nat).
Proof.
  split; [|split].
  - eexists. split; [vm_compute; reflexivity|]. split; [reflexivity|].
    eexists. vm_compute. reflexivity.
  - eexists. split; [vm_compute; reflexivity|]. split; reflexivity.
  - eexists. split; [vm_compute; reflexivity|]. split; reflexivity.
Qed.

(** [test_crossover_function] *)
Example test_crossover_function :
  _crossover_function (list_ascii_of_string "000000000011111")
                      (list_ascii_of_string "111111111100000") 10
  = (list_ascii_of_string "000000000000000", list_ascii_of_string "111111111111111").
Proof. reflexivity. Qed.

(** [test_compute_fitness], first part: the program runs to its end and the
    fitness it reported is recorded. *)
Example test_compute_fitness :
  let python := examples.python examples.exec_sum examples.at_start in
  exists self',
    compute_fitness python 2 examples.reporting_test = Returns (Some (1 # 1)) self' /\
    local_bnf self' !! "program" = Some (BStr examples.reporting_program) /\
    _position self' = (2, 2)%nat.
Proof.
  cbv zeta. eexists. split; [vm_compute; reflexivity|].
  split; vm_compute; reflexivity.
Qed.

End RepositoryTests.

Section ConversionProperties.
Import genotypes grammatical_evolution props.

Lemma is_bit_cases (c : ascii) : is_bit c = true -> c = "0"%char \/ c = "1"%char.
Proof.
  unfold is_bit. intros H. apply orb_prop in H as [H|H]; apply Ascii.eqb_eq in H; auto.
Qed.

Lemma append_bits_acc (p : positive) (acc : list ascii) :
  utilities.append_bits p acc = acc ++ utilities.append_bits p [].
Proof.
  revert acc. induction p as [q IH|q IH|]; intros acc; simpl.
  - rewrite IH, (IH ["1"%char]), <- app_assoc. reflexivity.
  - rewrite IH, (IH ["0"%char]), <- app_assoc. reflexivity.
  - reflexivity.
Qed.

Lemma loop_append_bits (p : positive) (rest : list ascii) (factor new_value : Z) (neg : bool) :
  (0 <= factor)%Z ->
  utilities.base2tobase10_loop (utilities.append_bits p [] ++ rest) factor new_value neg
  = utilities.base2tobase10_loop rest
      (factor + Z.of_nat (length (utilities.append_bits p [])))
      (new_value + Z.pos p * 2 ^ factor) neg.
Proof.
  revert factor new_value.
  induction p as [q IH|q IH|]; intros factor new_value Hf; simpl utilities.append_bits.
  - rewrite append_bits_acc. simpl. rewrite IH by lia.
    f_equal; [lia|]. rewrite Z.pow_add_r by lia. lia.
  - rewrite append_bits_acc. simpl. rewrite IH by lia.
    f_equal; [lia|]. rewrite Z.pow_add_r by lia. lia.
  - simpl. f_equal; lia.
Qed.

Lemma loop_zeros (n : nat) (rest : list ascii) (factor new_value : Z) (neg : bool) :
  utilities.base2tobase10_loop (replicate n "0"%char ++ rest) factor new_value neg
  = utilities.base2tobase10_loop rest (factor + Z.of_nat n) new_value neg.
Proof.
  revert factor new_value. induction n as [|n IH]; intros factor new_value.
  - simpl. f_equal. lia.
  - simpl. rewrite IH. f_equal; lia.
Qed.

Lemma rev_replicate {A} (n : nat) (x : A) : rev (replicate n x) = replicate n x.
Proof.
  induction n as [|n IH]; [done|]. simpl. rewrite IH.
  clear IH. induction n as [|n IH]; [done|]. simpl. by rewrite IH.
Qed.

(** X1. Whatever [base10tobase2] returns reads back with [base2tobase10] as
    the value it was given: for every integer, negative ones included, and
    every [zfill]. *)
Theorem base2tobase10_inverts_base10tobase2 (value : Z) (zfill_ : nat) (s : list ascii) :
  utilities.base10tobase2 value zfill_ = Val s ->
  utilities.base2tobase10 s = Val value.
Proof.
  unfold utilities.base10tobase2.
  set (digits := match (if (value <? 0)%Z then (value * -1)%Z else value) with
                 | Z0 => ["0"%char] | Zpos p => utilities.append_bits p [] | Zneg _ => [] end).
  assert (Hdigits : forall pad,
    utilities.base2tobase10_loop (digits ++ replicate pad "0"%char ++
                                  (if (value <? 0)%Z then ["-"%char] else [])) 0 0 false
    = Val (Z.abs value, (value <? 0)%Z)).
  { intros pad. unfold digits. destruct value as [|p|p].
    - simpl. rewrite loop_zeros. reflexivity.
    - change (Z.pos p <? 0)%Z with false. cbv iota.
      rewrite loop_append_bits, loop_zeros by lia. simpl. f_equal. f_equal. lia.
    - change (Z.neg p <? 0)%Z with true. cbv iota. replace (Z.neg p * -1)%Z with (Z.pos p) by lia.
      rewrite loop_append_bits, loop_zeros by lia. simpl. f_equal. f_equal. lia. }
  assert (Hread : forall pad,
    utilities.base2tobase10
      ((if (value <? 0)%Z then ["-"%char] else []) ++ replicate pad "0"%char ++ rev digits)
    = Val value).
  { intros pad. unfold utilities.base2tobase10.
    rewrite !rev_app_distr, rev_involutive, rev_replicate, <- app_assoc.
    replace (rev (if (value <? 0)%Z then ["-"%char] else []))
      with (if (value <? 0)%Z then ["-"%char] else []) by (destruct (value <? 0)%Z; reflexivity).
    rewrite Hdigits. simpl.
    destruct (value <? 0)%Z eqn:Hneg; f_equal; lia. }
  destruct (zfill_ =? 0)%nat.
  - simpl. intros [= <-]. specialize (Hread 0%nat).
    destruct (value <? 0)%Z; exact Hread.
  - destruct (zfill_ <? length (rev digits))%nat; [discriminate|].
    simpl. intros [= <-]. unfold utilities.zfill.
    specialize (Hread (zfill_ - length (rev digits))%nat).
    destruct (value <? 0)%Z; exact Hread.
Qed.


(** The value -5 of the documentation of [base10tobase2]. *)
Lemma base2tobase10_inverts_base10tobase2_witness :
  utilities.base2tobase10 (list_ascii_of_string "-101") = Val (-5)%Z.
Proof.
  apply (base2tobase10_inverts_base10tobase2 (-5)%Z 0%nat). reflexivity.
Defined.

Lemma length_append_bits (p : positive) :
  length (utilities.append_bits p []) = Pos.size_nat p.
Proof.
  induction p as [q IH|q IH|]; simpl; [| |reflexivity];
    rewrite append_bits_acc; simpl; by rewrite IH.
Qed.

Lemma size_nat_le_pow (p : positive) (n : nat) :
  (Pos.size_nat p <= n)%nat <-> (Z.pos p < 2 ^ Z.of_nat n)%Z.
Proof.
  revert n. induction p as [q IH|q IH|]; intros [|n]; simpl Pos.size_nat;
    rewrite ?Nat2Z.inj_succ, ?Z.pow_succ_r, ?Z.pow_0_r by lia;
    try (specialize (IH n)); lia.
Qed.

(** X2. With a [zfill] other than 0, [base10tobase2] returns exactly when
    the absolute value is below [2 ^ zfill], and raises [ValueError]
    otherwise; what it returns has [zfill] characters, and one more, the
    sign, for a negative value. *)
Theorem base10tobase2_zfill (value : Z) (zfill_ : nat) :
  zfill_ <> 0%nat ->
  ((Z.abs value < 2 ^ Z.of_nat zfill_)%Z ->
   exists s, utilities.base10tobase2 value zfill_ = Val s /\
             length s = if (value <? 0)%Z then S zfill_ else zfill_) /\
  ((2 ^ Z.of_nat zfill_ <= Z.abs value)%Z ->
   exists msg, utilities.base10tobase2 value zfill_ = Exc (ValueError msg)).
Proof.
  intros Hz. unfold utilities.base10tobase2.
  apply Nat.eqb_neq in Hz. rewrite Hz.
  set (digits := match (if (value <? 0)%Z then (value * -1)%Z else value) with
                 | Z0 => ["0"%char] | Zpos p => utilities.append_bits p [] | Zneg _ => [] end).
  assert (Hlen : (length (rev digits) <= zfill_)%nat <-> (Z.abs value < 2 ^ Z.of_nat zfill_)%Z).
  { rewrite length_rev. unfold digits. apply Nat.eqb_neq in Hz.
    destruct value as [|p|p].
    - simpl. pose proof (Z.pow_pos_nonneg 2 (Z.of_nat zfill_)). lia.
    - change (Z.pos p <? 0)%Z with false. cbv iota.
      rewrite length_append_bits. apply size_nat_le_pow.
    - change (Z.neg p <? 0)%Z with true. cbv iota.
      replace (Z.neg p * -1)%Z with (Z.pos p) by lia.
      rewrite length_append_bits. apply size_nat_le_pow. }
  split; intros Hfit.
  - apply Hlen in Hfit.
    destruct (zfill_ <? length (rev digits))%nat eqn:Hlong; [apply Nat.ltb_lt in Hlong; lia|].
    simpl. eexists. split; [reflexivity|].
    assert (Hfill : length (utilities.zfill zfill_ (rev digits)) = zfill_).
    { unfold utilities.zfill. rewrite length_app, length_replicate. lia. }
    destruct (value <? 0)%Z; simpl; by rewrite Hfill.
  - destruct (zfill_ <? length (rev digits))%nat eqn:Hlong.
    + simpl. eexists. reflexivity.
    + apply Nat.ltb_ge in Hlong. apply Hlen in Hlong. lia.
Qed.

Lemma base10tobase2_zfill_witness :
  ((Z.abs (-5) < 2 ^ Z.of_nat 8)%Z ->
   exists s, utilities.base10tobase2 (-5) 8 = Val s /\ length s = 9%nat) /\
  ((2 ^ Z.of_nat 8 <= Z.abs (-5))%Z ->
   exists msg, utilities.base10tobase2 (-5) 8 = Exc (ValueError msg)).
Proof.
  apply (base10tobase2_zfill (-5)%Z 8%nat). discriminate.
Defined.

Lemma loop_bits (l : list ascii) (factor new_value : Z) (neg : bool) :
  bit_string l -> (0 <= factor)%Z ->
  exists w, (0 <= w < 2 ^ Z.of_nat (length l))%Z /\
    utilities.base2tobase10_loop l factor new_value neg = Val ((new_value + w * 2 ^ factor)%Z, neg).
Proof.
  intros Hl. revert factor new_value.
  induction Hl as [|c l Hc _ IH]; intros factor new_value Hf.
  - exists 0%Z. simpl. split; [lia|]. do 2 f_equal. lia.
  - destruct (IH (factor + 1)%Z (new_value + (if Ascii.eqb c "1" then 1 else 0) * 2 ^ factor)%Z)
      as (w & Hw & Hloop); [lia|].
    exists ((if Ascii.eqb c "1" then 1 else 0) + 2 * w)%Z.
    split.
    + simpl length. rewrite Nat2Z.inj_succ, Z.pow_succ_r by lia.
      destruct (Ascii.eqb c "1"); lia.
    + destruct (is_bit_cases _ Hc) as [-> | ->]; simpl; simpl in Hloop;
        change (Z.of_nat 0) with 0%Z; change (Z.of_nat 1) with 1%Z; rewrite Hloop;
        do 2 f_equal; rewrite Z.pow_add_r by lia; lia.
Qed.

Lemma base2tobase10_bits (s : list ascii) :
  bit_string s ->
  exists v, utilities.base2tobase10 s = Val v /\ (0 <= v < 2 ^ Z.of_nat (length s))%Z.
Proof.
  intros Hs. unfold utilities.base2tobase10.
  destruct (loop_bits (rev s) 0 0 false) as (w & Hw & ->); [by apply Forall_rev|lia|].
  simpl. exists (0 + w * 1)%Z. split; [reflexivity|]. rewrite length_rev in Hw. lia.
Qed.


(** X3. [base2tobase10] of a string of [n] characters [0] and [1] does not
    raise, and its value is in [0, 2 ^ n). *)
Theorem base2tobase10_of_bit_string (s : list ascii) :
  bit_string s ->
  exists v, utilities.base2tobase10 s = Val v /\ (0 <= v < 2 ^ Z.of_nat (length s))%Z.
Proof. apply base2tobase10_bits. Qed.

Lemma base2tobase10_of_bit_string_witness :
  exists v, utilities.base2tobase10 (list_ascii_of_string "1011") = Val v /\
            (0 <= v < 2 ^ Z.of_nat 4)%Z.
Proof.
  apply (base2tobase10_of_bit_string (list_ascii_of_string "1011")).
  repeat constructor.
Defined.

Lemma bit_string_slice (gene : list ascii) (i j : nat) :
  bit_string gene -> bit_string (slice gene i j).
Proof. intros H. unfold slice. by apply Forall_take, Forall_drop. Qed.

Lemma decode_fold (gene : list ascii) (idxs : list nat) (acc : list Z) :
  bit_string gene -> codons_in_range acc ->
  exists dec_geno,
    res_fold (fun dec_geno i =>
                res_bind (utilities.base2tobase10 (slice gene i (i + 8)))
                         (fun str_trans => Val (dec_geno ++ [str_trans])))
             idxs acc = Val dec_geno /\
    codons_in_range dec_geno.
Proof.
  intros Hgene. revert acc. induction idxs as [|i idxs IH]; intros acc Hacc; simpl.
  - eauto.
  - destruct (base2tobase10_bits (slice gene i (i + 8))) as (v & -> & Hv);
      [by apply bit_string_slice|].
    simpl. apply IH. apply Forall_app. split; [done|]. constructor; [|constructor].
    assert (Hlen : (length (slice gene i (i + 8)) <= 8)%nat).
    { unfold slice. rewrite length_take. lia. }
    assert (2 ^ Z.of_nat (length (slice gene i (i + 8))) <= 2 ^ 8)%Z
      by (apply Z.pow_le_mono_r; lia).
    lia.
Qed.

(** X4. On a genotype whose binary gene holds only the characters [0] and
    [1] and whose recorded length is not 0, [generate_decimal_gene] returns;
    it leaves as many codons as the recorded length, every one of them in
    [0, 255], resets the cursor and keeps the binary gene. *)
Theorem generate_decimal_gene_of_bits (self : Genotype) :
  bit_string (binary_gene self) ->
  _gene_length self <> 0%nat ->
  exists self',
    generate_decimal_gene self = Returns tt self' /\
    codons_in_range (decimal_gene self') /\
    length (decimal_gene self') = _gene_length self /\
    _position self' = (0, 0)%nat /\
    binary_gene self' = binary_gene self.
Proof.
  intros Hbits Hlen.
  destruct (decode_fold (binary_gene self)
              (map (fun k => k * 8)%nat (seq 0 (_gene_length self))) [] Hbits)
    as (dec_geno & Hfold & Hrange); [constructor|].
  assert (Hgen : generate_decimal_gene self
                 = Returns tt (with_position (0, 0)%nat (with_decimal_gene dec_geno self))).
  { unfold generate_decimal_gene, bind, get, lift, modify.
    apply Nat.eqb_neq in Hlen. rewrite Hlen, Hfold. reflexivity. }
  eexists. split; [exact Hgen|].
  apply generate_decimal_gene_returns in Hgen as (Hl & Hb & _).
  simpl in *. auto.
Qed.

Lemma generate_decimal_gene_of_bits_witness :
  exists self',
    generate_decimal_gene examples.two_codons = Returns tt self' /\
    codons_in_range (decimal_gene self') /\
    length (decimal_gene self') = _gene_length examples.two_codons /\
    _position self' = (0, 0)%nat /\
    binary_gene self' = binary_gene examples.two_codons.
Proof.
  apply (generate_decimal_gene_of_bits examples.two_codons).
  - repeat constructor.
  - discriminate.
Defined.

Lemma in_bit_strings (s : list ascii) :
  bit_string s -> In s (bit_strings (length s)).
Proof.
  induction 1 as [|c s Hc _ IH]; simpl; [auto|].
  apply in_flat_map. exists s. split; [exact IH|].
  destruct (is_bit_cases _ Hc) as [-> | ->]; simpl; auto.
Qed.

Lemma byte_strings_table : forallb byte_reads_back (bit_strings 8) = true.
Proof. vm_compute. reflexivity. Qed.

Lemma byte_of_bits (s : list ascii) :
  bit_string s -> length s = 8%nat ->
  exists v, utilities.base2tobase10 s = Val v /\ (0 <= v <= 255)%Z /\ byte_bits v = s.
Proof.
  intros Hs Hlen. apply in_bit_strings in Hs. rewrite Hlen in Hs.
  pose proof (proj1 (forallb_forall _ _) byte_strings_table _ Hs) as H.
  unfold byte_reads_back in H.
  destruct (utilities.base2tobase10 s) as [v|e]; [|discriminate].
  apply andb_prop in H as [H Heq]. apply andb_prop in H as [H0 H255].
  apply bool_decide_eq_true in Heq.
  exists v. split; [reflexivity|]. split; [lia|exact Heq].
Qed.

Lemma decode_encode_fold (n : nat) :
  forall (b pre : list ascii) (m : nat) (acc : list Z),
    bit_string b -> length b = (n * 8)%nat -> length pre = (m * 8)%nat ->
    exists ds,
      res_fold (fun dec_geno i =>
                  res_bind (utilities.base2tobase10 (slice (pre ++ b) i (i + 8)))
                           (fun str_trans => Val (dec_geno ++ [str_trans])))
               (map (fun k => k * 8)%nat (seq m n)) acc = Val (acc ++ ds) /\
      codons_in_range ds /\
      concat (map byte_bits ds) = b.
Proof.
  induction n as [|n IH]; intros b pre m acc Hb Hlen Hpre.
  - exists []. destruct b; [|discriminate]. simpl. rewrite app_nil_r. repeat split. constructor.
  - rewrite <- (take_drop 8 b) in Hb |- *.
    apply Forall_app in Hb as [Hhead Htail].
    assert (Hh : length (take 8 b) = 8%nat) by (rewrite length_take; lia).
    destruct (byte_of_bits _ Hhead Hh) as (v & Hv & Hrange & Hbits).
    destruct (IH (drop 8 b) (pre ++ take 8 b) (S m) (acc ++ [v]) Htail) as (ds & Hfold & Hds & Hcat).
    { rewrite length_drop. lia. }
    { rewrite length_app, Hh, Hpre. lia. }
    exists (v :: ds). simpl.
    assert (Hslice : slice (pre ++ take 8 b ++ drop 8 b) (m * 8) (m * 8 + 8) = take 8 b).
    { unfold slice. rewrite drop_app_length' by done.
      replace (m * 8 + 8 - m * 8)%nat with 8%nat by lia.
      rewrite take_app_length' by done. reflexivity. }
    rewrite Hslice, Hv. simpl.
    rewrite <- !app_assoc in Hfold. simpl in Hfold. rewrite Hfold.
    split; [reflexivity|]. split; [by constructor|]. by rewrite Hbits, Hcat.
Qed.

(** X5. A non-empty binary gene of whole bytes of [0] and [1] survives the
    round trip: after [set_binary_gene] and [generate_decimal_gene], the
    decimal gene converts back to the same binary gene, so that
    [_update_genotype] changes neither view. *)
Theorem binary_gene_roundtrip (self : Genotype) (b : list ascii) :
  bit_string b -> b <> [] -> (length b mod 8 = 0)%nat ->
  exists self1 self2 self3,
    set_binary_gene b self = Returns tt self1 /\
    generate_decimal_gene self1 = Returns tt self2 /\
    codons_in_range (decimal_gene self2) /\
    _dec2bin_gene (decimal_gene self2) = Val b /\
    _update_genotype self2 = Returns tt self3 /\
    binary_gene self3 = b /\
    decimal_gene self3 = decimal_gene self2.
Proof.
  intros Hb Hne Hmod.
  assert (Hn : exists n, length b = (S n * 8)%nat).
  { apply Nat.Div0.div_exact in Hmod. destruct (length b / 8)%nat as [|n] eqn:Hq.
    - destruct b; [done|simpl in Hmod; lia].
    - exists n. lia. }
  destruct Hn as (n & Hlen).
  destruct (decode_encode_fold (S n) b [] 0 [] Hb Hlen eq_refl) as (ds & Hfold & Hds & Hcat).
  assert (Htrunc : take (length b - length b mod 8) b = b).
  { rewrite Hmod, Nat.sub_0_r. apply firstn_all. }
  assert (Hq : (length b / 8 = S n)%nat) by (rewrite Hlen; apply Nat.div_mul; lia).
  assert (Hgen : generate_decimal_gene (with_gene_length (S n) (with_binary_gene b self))
                 = Returns tt (with_position (0, 0)%nat (with_decimal_gene ds
                     (with_gene_length (S n) (with_binary_gene b self))))).
  { unfold generate_decimal_gene, bind, get, lift, modify.
    cbn [_gene_length binary_gene with_gene_length with_binary_gene Nat.eqb].
    simpl app in Hfold. rewrite Hfold. reflexivity. }
  assert (Hdec : _dec2bin_gene ds = Val b) by (rewrite dec2bin_gene_bytes by done; by rewrite Hcat).
  eexists _, _, _.
  split; [rewrite set_binary_gene_spec, Htrunc, Hq; reflexivity|].
  split; [exact Hgen|].
  cbn [decimal_gene with_position with_decimal_gene].
  split; [done|]. split; [done|].
  unfold _update_genotype, bind, get, lift.
  cbn [decimal_gene with_position with_decimal_gene]. rewrite Hdec.
  rewrite set_binary_gene_spec, Htrunc. auto.
Qed.

Lemma binary_gene_roundtrip_witness :
  let b := list_ascii_of_string "0000001100000100" in
  exists self1 self2 self3,
    set_binary_gene b examples.blank = Returns tt self1 /\
    generate_decimal_gene self1 = Returns tt self2 /\
    codons_in_range (decimal_gene self2) /\
    _dec2bin_gene (decimal_gene self2) = Val b /\
    _update_genotype self2 = Returns tt self3 /\
    binary_gene self3 = b /\
    decimal_gene self3 = decimal_gene self2.
Proof.
  apply (binary_gene_roundtrip examples.blank (list_ascii_of_string "0000001100000100")).
  - repeat constructor.
  - discriminate.
  - reflexivity.
Defined.

End ConversionProperties.

Section MutationProperties.
Import genotypes grammatical_evolution props.

Lemma mutate_at (pre suf : list ascii) (c : ascii) :
  _mutate (pre ++ c :: suf) (length pre) = Val (pre ++ flip_bit c :: suf).
Proof.
  unfold _mutate, flip_bit.
  rewrite lookup_app_r, Nat.sub_diag by lia. simpl.
  rewrite take_app_length.
  replace (length pre + 1)%nat with (length (pre ++ [c])) by (rewrite length_app; simpl; lia).
  rewrite (cons_middle c pre suf), app_assoc, drop_app_length.
  destruct (Ascii.eqb c "0"); reflexivity.
Qed.

Lemma flip_bit_twice (c : ascii) : is_bit c = true -> flip_bit (flip_bit c) = c.
Proof. intros H. by destruct (is_bit_cases _ H) as [-> | ->]. Qed.

Lemma is_bit_flip (c : ascii) : is_bit (flip_bit c) = true.
Proof. unfold flip_bit. by destruct (Ascii.eqb c "0"). Qed.

(** X6. [_mutate] changes the one character at [position] and nothing
    else: a [0] becomes [1] and any other character [0]; the length and all
    other characters are kept; on a [0] or a [1], mutating the same position
    again gives the gene back.  A position past the end raises
    [IndexError]. *)
Theorem mutate_flips_one_character (gene : list ascii) (position : nat) :
  match gene !! position with
  | None => _mutate gene position = Exc IndexError
  | Some c =>
      exists gene',
        _mutate gene position = Val gene' /\
        length gene' = length gene /\
        gene' !! position = Some (flip_bit c) /\
        (forall i, i <> position -> gene' !! i = gene !! i) /\
        (is_bit c = true -> _mutate gene' position = Val gene)
  end.
Proof.
  destruct (gene !! position) as [c|] eqn:Hc.
  - apply list_elem_of_split_length in Hc as (pre & suf & -> & ->).
    exists (pre ++ flip_bit c :: suf).
    split; [apply mutate_at|].
    split; [rewrite !length_app; reflexivity|].
    split; [by rewrite lookup_app_r, Nat.sub_diag by lia|].
    split.
    + intros i Hi. destruct (decide (i < length pre)%nat) as [Hlt|Hge].
      * by rewrite !lookup_app_l by done.
      * rewrite !lookup_app_r by lia.
        destruct (i - length pre)%nat as [|j] eqn:Hj; [lia|reflexivity].
    + intros Hbit. rewrite mutate_at, flip_bit_twice by done. reflexivity.
  - unfold _mutate. by rewrite Hc.
Qed.

Lemma mutate_bits (gene gene' : list ascii) (position : nat) :
  bit_string gene -> _mutate gene position = Val gene' -> bit_string gene'.
Proof.
  intros Hg Hm.
  destruct (gene !! position) as [c|] eqn:Hc;
    [|unfold _mutate in Hm; rewrite Hc in Hm; discriminate].
  apply list_elem_of_split_length in Hc as (pre & suf & -> & ->).
  rewrite mutate_at in Hm. injection Hm as <-.
  apply Forall_app in Hg as [Hpre Hsuf]. apply Forall_cons in Hsuf as [_ Hsuf].
  apply Forall_app. split; [done|]. constructor; [apply is_bit_flip|done].
Qed.

Lemma generate_on_bits (self : Genotype) :
  bit_string (binary_gene self) ->
  _gene_length self <> 0%nat ->
  exists dec_geno,
    generate_decimal_gene self
    = Returns tt (with_position (0, 0)%nat (with_decimal_gene dec_geno self)) /\
    codons_in_range dec_geno /\
    length dec_geno = _gene_length self.
Proof.
  intros Hbits Hlen.
  destruct (decode_fold (binary_gene self)
              (map (fun k => k * 8)%nat (seq 0 (_gene_length self))) [] Hbits)
    as (dec_geno & Hfold & Hrange); [constructor|].
  exists dec_geno.
  assert (Hgen : generate_decimal_gene self
                 = Returns tt (with_position (0, 0)%nat (with_decimal_gene dec_geno self))).
  { unfold generate_decimal_gene, bind, get, lift, modify.
    apply Nat.eqb_neq in Hlen. rewrite Hlen, Hfold. reflexivity. }
  split; [exact Hgen|]. split; [done|].
  apply generate_decimal_gene_returns in Hgen as (Hl & _ & _). exact Hl.
Qed.

(** X7. On a genotype whose recorded length is that of its binary gene of
    [0] and [1], a single mutation at any position that [randint] can draw
    returns: it flips the bit at that position and no other, regenerates a
    decimal gene of bytes that agrees in length with the binary gene, and
    resets the cursor. *)
Theorem single_mutate_flips_one_bit (self : Genotype) (position : nat) :
  gene_length_consistent self ->
  bit_string (binary_gene self) ->
  (position < get_binary_gene_length self)%nat ->
  exists c self',
    binary_gene self !! position = Some c /\
    _single_mutate position self = Returns tt self' /\
    binary_gene self' = <[position := flip_bit c]> (binary_gene self) /\
    codons_in_range (decimal_gene self') /\
    views_agree self' /\
    _position self' = (0, 0)%nat.
Proof.
  unfold gene_length_consistent, get_binary_gene_length. intros Hcons Hbits Hpos.
  assert (Hle : (_gene_length self * 8 <= length (binary_gene self))%nat).
  { rewrite Hcons, Nat.mul_comm. apply Nat.Div0.mul_div_le. }
  destruct (lookup_lt_is_Some_2 (binary_gene self) position) as [c Hc]; [lia|].
  pose proof Hc as Hsplit.
  apply list_elem_of_split_length in Hsplit as (pre & suf & Hgene & ->).
  assert (Hmut : _mutate (binary_gene self) (length pre) = Val (pre ++ flip_bit c :: suf))
    by (rewrite Hgene; apply mutate_at).
  destruct (generate_on_bits (with_binary_gene (pre ++ flip_bit c :: suf) self))
    as (dec_geno & Hgen & Hrange & Hlen).
  { simpl. eapply mutate_bits; eassumption. }
  { simpl. lia. }
  exists c. eexists. split; [exact Hc|].
  split.
  { unfold _single_mutate, bind, get, lift, modify.
    destruct (_gene_length self * 8 =? 0)%nat eqn:H0; [apply Nat.eqb_eq in H0; lia|].
    rewrite Hmut. exact Hgen. }
  simpl. split.
  { rewrite Hgene, insert_app_r_alt, Nat.sub_diag by lia. reflexivity. }
  split; [done|]. split; [|reflexivity].
  unfold views_agree. simpl. simpl in Hlen. rewrite Hlen, Hcons, Hgene, !length_app. reflexivity.
Qed.

Lemma single_mutate_flips_one_bit_witness :
  exists c self',
    binary_gene examples.two_codons !! 3%nat = Some c /\
    _single_mutate 3 examples.two_codons = Returns tt self' /\
    binary_gene self' = <[3%nat := flip_bit c]> (binary_gene examples.two_codons) /\
    codons_in_range (decimal_gene self') /\
    views_agree self' /\
    _position self' = (0, 0)%nat.
Proof.
  apply (single_mutate_flips_one_bit examples.two_codons 3).
  - reflexivity.
  - repeat constructor.
  - vm_compute. lia.
Defined.

Lemma multiple_mutate_fold (mutation_rate : Q) (rnd : nat -> Q) (suf : list ascii) :
  forall pre : list ascii,
    res_fold (fun gene i => if Qlt_bool (rnd i) mutation_rate then _mutate gene i else Val gene)
             (seq (length pre) (length suf)) (pre ++ suf)
    = Val (pre ++ mutated_from mutation_rate rnd (length pre) suf).
Proof.
  induction suf as [|c suf IH]; intros pre; simpl; [reflexivity|].
  specialize (IH (pre ++ [if Qlt_bool (rnd (length pre)) mutation_rate then flip_bit c else c])).
  rewrite length_app in IH. simpl in IH. rewrite Nat.add_1_r, <- !app_assoc in IH. simpl in IH.
  destruct (Qlt_bool (rnd (length pre)) mutation_rate).
  - rewrite mutate_at. simpl. exact IH.
  - simpl. exact IH.
Qed.

Lemma mutated_bits (mutation_rate : Q) (rnd : nat -> Q) (gene : list ascii) :
  forall i, bit_string gene -> bit_string (mutated_from mutation_rate rnd i gene).
Proof.
  induction gene as [|c gene IH]; intros i Hg; simpl; [constructor|].
  apply Forall_cons in Hg as [Hc Hg]. constructor; [|by apply IH].
  destruct (Qlt_bool (rnd i) mutation_rate); [apply is_bit_flip|done].
Qed.

Lemma length_mutated (mutation_rate : Q) (rnd : nat -> Q) (gene : list ascii) :
  forall i, length (mutated_from mutation_rate rnd i gene) = length gene.
Proof. induction gene as [|c gene IH]; intros i; simpl; [done|]. by rewrite IH. Qed.

(** X8. With a rate in [0, 1] and a binary gene of at least eight [0] and
    [1], a multiple mutation returns: bit [i] is flipped exactly when the
    [i]-th draw of [random()] is below the rate, the result is cut to whole
    bytes, the decimal gene is regenerated from it and the cursor reset. *)
Theorem multiple_mutate_flips_drawn_bits
    (mutation_rate : Q) (rnd : nat -> Q) (self : Genotype) :
  Qlt_bool mutation_rate 0 = false ->
  Qlt_bool 1 mutation_rate = false ->
  bit_string (binary_gene self) ->
  (8 <= length (binary_gene self))%nat ->
  let length_ := length (binary_gene self) in
  exists self',
    _multiple_mutate mutation_rate rnd self = Returns tt self' /\
    binary_gene self'
    = take (length_ - length_ mod 8) (mutated_from mutation_rate rnd 0 (binary_gene self)) /\
    codons_in_range (decimal_gene self') /\
    views_agree self' /\
    _position self' = (0, 0)%nat.
Proof.
  intros Hlow Hhigh Hbits Hlen length_. subst length_.
  set (length_ := length (binary_gene self)) in *.
  pose proof (multiple_mutate_fold mutation_rate rnd (binary_gene self) []) as Hfold.
  simpl in Hfold.
  set (gene' := mutated_from mutation_rate rnd 0 (binary_gene self)) in *.
  assert (Hlen' : length gene' = length_) by apply length_mutated.
  set (trunc := take (length_ - length_ mod 8) gene').
  assert (Htrunc : length trunc = (length_ - length_ mod 8)%nat).
  { unfold trunc. rewrite length_take. lia. }
  assert (Hq : (1 <= length trunc / 8)%nat).
  { rewrite Htrunc.
    pose proof (Nat.mod_upper_bound length_ 8 ltac:(lia)) as Hm.
    pose proof (Nat.div_mod_eq length_ 8) as Hd.
    apply Nat.div_le_lower_bound; [lia|].
    destruct (length_ / 8)%nat eqn:Hdiv; lia. }
  destruct (generate_on_bits (with_gene_length (length trunc / 8) (with_binary_gene trunc self)))
    as (dec_geno & Hgen & Hrange & Hdl).
  { cbn [binary_gene with_gene_length with_binary_gene].
    unfold trunc. apply Forall_take. by apply mutated_bits. }
  { cbn [_gene_length with_gene_length]. lia. }
  eexists. split.
  { unfold _multiple_mutate. rewrite Hlow, Hhigh.
    unfold bind at 1, get at 1. unfold bind at 1, lift at 1. rewrite Hfold.
    unfold bind at 1. rewrite set_binary_gene_spec. rewrite Hlen'. fold trunc. exact Hgen. }
  cbn [binary_gene decimal_gene _position with_position with_decimal_gene
       with_gene_length with_binary_gene].
  split; [reflexivity|]. split; [done|]. split; [|reflexivity].
  unfold views_agree.
  cbn [binary_gene decimal_gene _gene_length with_position with_decimal_gene
       with_gene_length with_binary_gene] in *.
  exact Hdl.
Qed.

(** Every second draw is below the rate one half. *)
Lemma multiple_mutate_flips_drawn_bits_witness :
  let rnd := fun i : nat => if Nat.even i then 0 # 1 else 1 # 1 in
  exists self',
    _multiple_mutate (1 # 2) rnd examples.two_codons = Returns tt self' /\
    binary_gene self'
    = take (16 - 16 mod 8) (mutated_from (1 # 2) rnd 0 (binary_gene examples.two_codons)) /\
    codons_in_range (decimal_gene self') /\
    views_agree self' /\
    _position self' = (0, 0)%nat.
Proof.
  apply (multiple_mutate_flips_drawn_bits (1 # 2)
           (fun i : nat => if Nat.even i then 0 # 1 else 1 # 1) examples.two_codons).
  - reflexivity.
  - reflexivity.
  - repeat constructor.
  - vm_compute. lia.
Defined.

End MutationProperties.
